(** * pyvista.plotting.camera: the [Camera] wrapper over [vtk.vtkCamera]

    A shallow embedding of [src/pyvista/plotting/camera.py].  The Python class
    [Camera] inherits from the native [vtkCamera]; every method is a short
    delegation to the native object plus three cached attributes
    ([_position], [_focus], [_is_parallel_projection]).

    - Python numbers are [number] (an [int] or a binary64 [float]); the native
      engine works on C doubles, modelled by [spec_float] at precision 53.
    - The native camera is an interface ([vtkCamera]): an abstract state with
      the getters and setters the wrapper calls.
    - Methods run in the monad [M]: the camera object is threaded as state and
      survives a raised exception, as a Python object does.
    - A Python argument handed to a native method is converted by the binding
      ([as_double], [as_vector]), which refuses what does not fit with
      [OverflowError] or [TypeError] before the native method runs. *)

From Stdlib Require Import ZArith List Bool String Lia.
From Stdlib Require Import Floats.SpecFloat.
Import ListNotations.
Local Open Scope Z_scope.

(** ** Python values *)

(** A C [double]: IEEE 754 binary64. *)
Definition double := spec_float.

Definition prec64 : Z := 53.
Definition emax64 : Z := 1024.

(** A Python [Number] as the wrapper receives it: [int] or [float]. *)
Inductive number :=
| PyInt (z : Z)
| PyFloat (f : double).

(** The integer [z] rounded to a double (to nearest, ties to even); an
    integer beyond the range of binary64 rounds to an infinity. *)
Definition double_of_Z (z : Z) : double :=
  binary_normalize prec64 emax64 z 0 false.

(** The C conversion of a number that fits a double: an element of a numeric
    array (int64 or float64), a small literal.  A Python [int] passed as an
    argument to the binding goes through [as_double] below, which refuses
    the integers that do not fit. *)
Definition to_double (n : number) : double :=
  match n with
  | PyInt z => double_of_Z z
  | PyFloat f => f
  end.

(** Exact comparison of a float with an integer ([float.__gt__(int)] compares
    the mathematical values, with no rounding of the integer). *)
Definition float_cmp_int (f : double) (z : Z) : option comparison :=
  match f with
  | S754_nan => None
  | S754_infinity s => Some (if s then Lt else Gt)
  | S754_zero _ => Some (Z.compare 0 z)
  | S754_finite s m e =>
      let sm := cond_Zopp s (Zpos m) in
      Some (if 0 <=? e then Z.compare (sm * 2 ^ e) z
            else Z.compare sm (z * 2 ^ (- e)))
  end.

(** Three-way comparison of Python numbers; [None] when a NaN is involved
    (every ordering test is then false). *)
Definition number_compare (a b : number) : option comparison :=
  match a, b with
  | PyInt x, PyInt y => Some (Z.compare x y)
  | PyFloat x, PyFloat y => SFcompare x y
  | PyFloat x, PyInt y => float_cmp_int x y
  | PyInt x, PyFloat y => option_map CompOpp (float_cmp_int y x)
  end.

(** Python's [a > b] and [a <= b] on numbers. *)
Definition py_gt (a b : number) : bool :=
  match number_compare a b with
  | Some Gt => true
  | _ => false
  end.

Definition py_le (a b : number) : bool :=
  match number_compare a b with
  | Some (Lt | Eq) => true
  | _ => false
  end.

(** [Vector]: three floats (pyvista.typing.Vector). *)
Definition Vector : Type := double * double * double.

(** Python objects that can be passed where a flag is expected. *)
Inductive value :=
| VNone
| VBool (b : bool)
| VNum (n : number)
| VStr (s : string).

(** Exceptions the wrapper can raise or let through. *)
Inductive exn :=
| ValueError (msg : string)
| IndexError
| TypeError
| AttributeError
| OverflowError.

Inductive result (A : Type) :=
| Ok (a : A)
| Raise (e : exn).
Arguments Ok {A} a.
Arguments Raise {A} e.

(** ** Arguments of native calls *)

(** The binding's conversion of a Python number passed for a C [double]
    ([PyFloat_AsDouble]): a float passes as it is, NaN and infinities
    included; an [int] is rounded to the nearest double and refused with
    [OverflowError] ("int too large to convert to float") when that is beyond
    the range of binary64. *)
Definition as_double (n : number) : result double :=
  match n with
  | PyFloat f => Ok f
  | PyInt z =>
      match double_of_Z z with
      | S754_infinity _ => Raise OverflowError
      | d => Ok d
      end
  end.

(** The binding's conversion of a Python sequence passed for a C
    [double[3]]: [TypeError] unless it has three elements, each converted in
    turn. *)
Definition as_vector (value : list number)
  : result (double * double * double) :=
  match value with
  | [x; y; z] =>
      match as_double x with
      | Raise e => Raise e
      | Ok a =>
          match as_double y with
          | Raise e => Raise e
          | Ok b =>
              match as_double z with
              | Raise e => Raise e
              | Ok c => Ok (a, b, c)
              end
          end
      end
  | _ => Raise TypeError
  end.

(** A call site that may omit an argument with a default. *)
Definition default {A : Type} (d : A) (arg : option A) : A :=
  match arg with
  | Some a => a
  | None => d
  end.

(** ** Native matrices and numpy arrays *)

(** [vtkMatrix4x4]: sixteen doubles, [Element[i][j]] in row-major order. *)
Inductive vtkMatrix4x4 :=
| Matrix4x4 (e00 e01 e02 e03
             e10 e11 e12 e13
             e20 e21 e22 e23
             e30 e31 e32 e33 : double).

Definition elements (m : vtkMatrix4x4) : list double :=
  match m with
  | Matrix4x4 e00 e01 e02 e03 e10 e11 e12 e13 e20 e21 e22 e23 e30 e31 e32 e33 =>
      [e00; e01; e02; e03; e10; e11; e12; e13;
       e20; e21; e22; e23; e30; e31; e32; e33]
  end.

(** A numpy array of a numeric dtype (int64 or float64, whose elements
    always convert to a double): its shape and its buffer in C order. *)
Record ndarray := mk_ndarray {
  shape : list nat;
  data : list number
}.

(** [np.empty(shape)]: a fresh array whose cells hold whatever the allocated
    memory held, [uninit k] in cell [k]. *)
Definition np_empty (shp : list nat) (uninit : nat -> double) : ndarray :=
  {| shape := shp;
     data := map (fun k => PyFloat (uninit k))
                 (seq 0 (fold_right Nat.mul 1%nat shp)) |}.

(** [a.ravel()]: the flat view of the buffer. *)
Definition ravel (a : ndarray) : list number := data a.

(** [vtkMatrix4x4.DeepCopy(elements)]: fills a matrix from sixteen numbers;
    the binding refuses a sequence of another length. *)
Definition DeepCopy_from (flat : list number) : option vtkMatrix4x4 :=
  match map to_double flat with
  | [e00; e01; e02; e03; e10; e11; e12; e13;
     e20; e21; e22; e23; e30; e31; e32; e33] =>
      Some (Matrix4x4 e00 e01 e02 e03 e10 e11 e12 e13
                      e20 e21 e22 e23 e30 e31 e32 e33)
  | _ => None
  end.

(** [vtkMatrix4x4.DeepCopy(dest, source)]: writes the sixteen elements of
    [source] over the first sixteen cells of the buffer [dest]. *)
Definition DeepCopy_into (dest : list number) (source : vtkMatrix4x4)
  : list number :=
  map PyFloat (elements source) ++ skipn 16 dest.

(** ** The native camera *)

(** The part of [vtk.vtkCamera] that [Camera] calls.  [native] is the state of
    the C++ object; [Observers] lists the observer tags registered on it.
    [SetParallelProjection] receives the Python object as it is: it returns
    the native state after the call and the exception raised, if any (the
    binding converts the object to a C [int] and may refuse it). *)
Class vtkCamera := {
  native : Type;
  GetPosition : native -> Vector;
  SetPosition : Vector -> native -> native;
  GetFocalPoint : native -> Vector;
  SetFocalPoint : Vector -> native -> native;
  GetModelTransformMatrix : native -> vtkMatrix4x4;
  SetModelTransformMatrix : vtkMatrix4x4 -> native -> native;
  GetDistance : native -> double;
  GetThickness : native -> double;
  SetThickness : double -> native -> native;
  GetParallelScale : native -> double;
  SetParallelScale : double -> native -> native;
  Zoom : double -> native -> native;
  GetViewUp : native -> Vector;
  SetViewUp : Vector -> native -> native;
  SetParallelProjection : value -> native -> native * option exn;
  GetClippingRange : native -> double * double;
  SetClippingRange : double -> double -> native -> native;
  Observers : native -> list nat;
  RemoveAllObservers : native -> native
}.

Section CameraClass.

Context {vtk : vtkCamera}.

(** ** The [Camera] object *)

(** The instance: the inherited native part and the attributes the class
    assigns.  [parent] is [None] while the attribute was never assigned. *)
Record Camera := mk_Camera {
  engine : native;
  _position : Vector;
  _focus : Vector;
  _is_parallel_projection : value;
  parent : option value
}.

(** Methods: the object is threaded through and kept when an exception is
    raised. *)
Definition M (A : Type) : Type := Camera -> Camera * result A.

Definition ret {A : Type} (a : A) : M A := fun self => (self, Ok a).

Definition raise {A : Type} (e : exn) : M A := fun self => (self, Raise e).

Definition bind {A B : Type} (m : M A) (k : A -> M B) : M B :=
  fun self =>
    match m self with
    | (self', Ok a) => k a self'
    | (self', Raise e) => (self', Raise e)
    end.

Notation "x <- m ;; k" := (bind m (fun x => k))
  (at level 61, m at next level, right associativity).
Notation "m ;; k" := (bind m (fun _ => k))
  (at level 61, right associativity).

(** The object with its native part replaced, its attributes kept. *)
Definition with_engine (e : native) (self : Camera) : Camera :=
  mk_Camera e (_position self) (_focus self)
            (_is_parallel_projection self) (parent self).

(** A call of an inherited native method that changes the native state. *)
Definition call (f : native -> native) : M unit :=
  fun self => (with_engine (f (engine self)) self, Ok tt).

(** A call of an inherited native method that may raise. *)
Definition call_raising (f : native -> native * option exn) : M unit :=
  fun self =>
    let '(e, r) := f (engine self) in
    (with_engine e self,
     match r with
     | None => Ok tt
     | Some x => Raise x
     end).

(** The conversion of an argument by the binding, before the native method
    runs: its exception is raised with the object as it is. *)
Definition binding {A : Type} (r : result A) : M A :=
  fun self => (self, r).

(** A call of an inherited native method that only reads. *)
Definition query {A : Type} (g : native -> A) : M A :=
  fun self => (self, Ok (g (engine self))).

(** Attribute reads and assignments. *)
Definition read {A : Type} (field : Camera -> A) : M A :=
  fun self => (self, Ok (field self)).

Definition assign_position (p : Vector) : M unit :=
  fun self =>
    (mk_Camera (engine self) p (_focus self)
               (_is_parallel_projection self) (parent self), Ok tt).

Definition assign_focus (p : Vector) : M unit :=
  fun self =>
    (mk_Camera (engine self) (_position self) p
               (_is_parallel_projection self) (parent self), Ok tt).

Definition assign_is_parallel_projection (v : value) : M unit :=
  fun self =>
    (mk_Camera (engine self) (_position self) (_focus self) v (parent self),
     Ok tt).

Definition assign_parent (v : value) : M unit :=
  fun self =>
    (mk_Camera (engine self) (_position self) (_focus self)
               (_is_parallel_projection self) (Some v), Ok tt).

(** [seq[i]] for a constant, non-negative index. *)
Definition getitem {A : Type} (l : list A) (i : nat) : M A :=
  match nth_error l i with
  | Some x => ret x
  | None => raise IndexError
  end.

(** [__init__]: run on the freshly created native camera [e]. *)
Definition __init__ (e : native) : Camera :=
  {| engine := e;
     _position := GetPosition e;
     _focus := GetFocalPoint e;
     _is_parallel_projection := VBool false;
     parent := None |}.

(** [position] (getter and setter). *)
Definition position : M Vector := read _position.

Definition set_position (value : Vector) : M unit :=
  call (SetPosition value) ;;
  p <- query GetPosition ;;
  assign_position p.

(** [focal_point] (getter and setter). *)
Definition focal_point : M Vector := read _focus.

Definition set_focal_point (point : Vector) : M unit :=
  call (SetFocalPoint point) ;;
  p <- query GetFocalPoint ;;
  assign_focus p.

(** [model_transform_matrix] getter: [uninit] is the content of the memory
    that [np.empty] hands out. *)
Definition model_transform_matrix (uninit : nat -> double) : M ndarray :=
  vtk_matrix <- query GetModelTransformMatrix ;;
  let matrix := np_empty [4%nat; 4%nat] uninit in
  let matrix := {| shape := shape matrix;
                   data := DeepCopy_into (ravel matrix) vtk_matrix |} in
  ret matrix.

(** [model_transform_matrix] setter. *)
Definition set_model_transform_matrix (matrix : ndarray) : M unit :=
  match DeepCopy_from (ravel matrix) with
  | Some vtk_matrix => call (SetModelTransformMatrix vtk_matrix)
  | None => raise TypeError
  end.

Definition is_parallel_projection : M value := read _is_parallel_projection.

Definition distance : M double := query GetDistance.

Definition thickness : M double := query GetThickness.

Definition set_thickness (length : double) : M unit :=
  call (SetThickness length).

Definition parallel_scale : M double := query GetParallelScale.

Definition set_parallel_scale (scale : double) : M unit :=
  call (SetParallelScale scale).

Definition zoom (value : double) : M unit := call (Zoom value).

(** [up(vector=None)]: the outer [option] is the presence of the argument,
    the inner one Python's [None]; the result [None] is Python's [None]. *)
Definition up (arg : option (option Vector)) : M (option Vector) :=
  let vector := default None arg in
  match vector with
  | None => v <- query GetViewUp ;; ret (Some v)
  | Some v => call (SetViewUp v) ;; ret None
  end.

(** [enable_parallel_projection(flag=True)]. *)
Definition enable_parallel_projection (arg : option value) : M unit :=
  let flag := default (VBool true) arg in
  assign_is_parallel_projection flag ;;
  call_raising (SetParallelProjection flag).

Definition disable_parallel_projection : M unit :=
  enable_parallel_projection (Some (VBool false)).

(** [clipping_range] (getter and setter). *)
Definition clipping_range : M (double * double) := query GetClippingRange.

Definition set_clipping_range (points : list number) : M unit :=
  near <- getitem points 0 ;;
  far <- getitem points 1 ;;
  if py_gt near far
  then raise (ValueError "Near point should lower than far point.")
  else
    p0 <- getitem points 0 ;;
    p1 <- getitem points 1 ;;
    a <- binding (as_double p0) ;;
    b <- binding (as_double p1) ;;
    call (SetClippingRange a b).

(** [__del__]. *)
Definition __del__ : M unit :=
  call RemoveAllObservers ;;
  assign_parent VNone.

(** ** Properties and their setters *)

(** The names declared with [@property]. *)
Inductive property :=
| prop_position
| prop_focal_point
| prop_model_transform_matrix
| prop_is_parallel_projection
| prop_distance
| prop_thickness
| prop_parallel_scale
| prop_clipping_range.

(** Whether the class gives the property a [@<name>.setter]. *)
Definition has_setter (p : property) : bool :=
  match p with
  | prop_position => true
  | prop_focal_point => true
  | prop_model_transform_matrix => true
  | prop_is_parallel_projection => false
  | prop_distance => false
  | prop_thickness => true
  | prop_parallel_scale => true
  | prop_clipping_range => true
  end.

(** [camera.<p> = ...]: runs the setter, or raises [AttributeError] when the
    property has none. *)
Definition property_assign (p : property) (fset : M unit) : M unit :=
  if has_setter p then fset else raise AttributeError.

(** ** Histories of a camera *)

(** What a client can do with a live camera: use the interface of the class,
    or call a method inherited from the native class directly.  The vectors
    and floats are the C values the native methods receive; [request] below
    takes the Python arguments and their conversion. *)
Inductive invocation :=
| get_position
| put_position (v : Vector)
| get_focal_point
| put_focal_point (p : Vector)
| get_model_transform_matrix (uninit : nat -> double)
| put_model_transform_matrix (m : ndarray)
| get_is_parallel_projection
| put_is_parallel_projection (v : value)
| get_distance
| put_distance (d : double)
| get_thickness
| put_thickness (t : double)
| get_parallel_scale
| put_parallel_scale (s : double)
| do_zoom (z : double)
| do_up (arg : option (option Vector))
| do_enable_parallel_projection (arg : option value)
| do_disable_parallel_projection
| get_clipping_range
| put_clipping_range (points : list number)
| inherited (f : native -> native).

(** The object after a method ran, whatever it returned or raised. *)
Definition after {A : Type} (m : M A) (self : Camera) : Camera :=
  fst (m self).

Definition step (self : Camera) (i : invocation) : Camera :=
  match i with
  | get_position => after position self
  | put_position v => after (property_assign prop_position (set_position v)) self
  | get_focal_point => after focal_point self
  | put_focal_point p =>
      after (property_assign prop_focal_point (set_focal_point p)) self
  | get_model_transform_matrix u => after (model_transform_matrix u) self
  | put_model_transform_matrix m =>
      after (property_assign prop_model_transform_matrix
               (set_model_transform_matrix m)) self
  | get_is_parallel_projection => after is_parallel_projection self
  | put_is_parallel_projection v =>
      after (property_assign prop_is_parallel_projection
               (assign_is_parallel_projection v)) self
  | get_distance => after distance self
  | put_distance d =>
      after (property_assign prop_distance (ret tt)) self
  | get_thickness => after thickness self
  | put_thickness t => after (property_assign prop_thickness (set_thickness t)) self
  | get_parallel_scale => after parallel_scale self
  | put_parallel_scale s =>
      after (property_assign prop_parallel_scale (set_parallel_scale s)) self
  | do_zoom z => after (zoom z) self
  | do_up arg => after (up arg) self
  | do_enable_parallel_projection arg => after (enable_parallel_projection arg) self
  | do_disable_parallel_projection => after disable_parallel_projection self
  | get_clipping_range => after clipping_range self
  | put_clipping_range points =>
      after (property_assign prop_clipping_range (set_clipping_range points)) self
  | inherited f => after (call f) self
  end.

Definition run (history : list invocation) (self : Camera) : Camera :=
  fold_left step history self.

Definition writes_position (i : invocation) : bool :=
  match i with
  | put_position _ => true
  | _ => false
  end.

Definition writes_focal_point (i : invocation) : bool :=
  match i with
  | put_focal_point _ => true
  | _ => false
  end.

Definition toggles_projection (i : invocation) : bool :=
  match i with
  | do_enable_parallel_projection _ => true
  | do_disable_parallel_projection => true
  | _ => false
  end.

(** A state a camera can be in: built by [__init__], then used. *)
Definition reachable (self : Camera) : Prop :=
  exists e0 history, self = run history (__init__ e0).

(** ** Outcomes of invocations *)

(** A method run for its effect: the value it returns is dropped, the
    exception it raises is kept. *)
Definition forget {A : Type} (m : M A) : M unit :=
  fun self =>
    match m self with
    | (self', Ok _) => (self', Ok tt)
    | (self', Raise x) => (self', Raise x)
    end.

(** An invocation with its outcome. *)
Definition invoke (i : invocation) : M unit :=
  match i with
  | get_position => forget position
  | put_position v => property_assign prop_position (set_position v)
  | get_focal_point => forget focal_point
  | put_focal_point p => property_assign prop_focal_point (set_focal_point p)
  | get_model_transform_matrix u => forget (model_transform_matrix u)
  | put_model_transform_matrix m =>
      property_assign prop_model_transform_matrix (set_model_transform_matrix m)
  | get_is_parallel_projection => forget is_parallel_projection
  | put_is_parallel_projection v =>
      property_assign prop_is_parallel_projection
        (assign_is_parallel_projection v)
  | get_distance => forget distance
  | put_distance d => property_assign prop_distance (ret tt)
  | get_thickness => forget thickness
  | put_thickness t => property_assign prop_thickness (set_thickness t)
  | get_parallel_scale => forget parallel_scale
  | put_parallel_scale s =>
      property_assign prop_parallel_scale (set_parallel_scale s)
  | do_zoom z => zoom z
  | do_up arg => forget (up arg)
  | do_enable_parallel_projection arg => enable_parallel_projection arg
  | do_disable_parallel_projection => disable_parallel_projection
  | get_clipping_range => forget clipping_range
  | put_clipping_range points =>
      property_assign prop_clipping_range (set_clipping_range points)
  | inherited f => call f
  end.

(** The getters, and [up] called without a vector. *)
Definition is_read (i : invocation) : bool :=
  match i with
  | get_position
  | get_focal_point
  | get_model_transform_matrix _
  | get_is_parallel_projection
  | get_distance
  | get_thickness
  | get_parallel_scale
  | get_clipping_range => true
  | do_up arg =>
      match default None arg with
      | None => true
      | Some _ => false
      end
  | _ => false
  end.

(** A direct call of an inherited native method. *)
Definition is_inherited (i : invocation) : bool :=
  match i with
  | inherited _ => true
  | _ => false
  end.

(** ** Calls with their Python arguments *)

(** A use of the camera as the client writes it.  The vectors and floats of
    an [invocation] are the C values the native method receives; here the
    setters that hand their argument to a native method take the Python
    object, which the binding converts when the native method is called and
    may refuse. *)
Inductive request :=
| converted (i : invocation)
| position_is (value : list number)
| focal_point_is (point : list number)
| thickness_is (length : number)
| parallel_scale_is (scale : number)
| zoom_by (value : number)
| up_to (vector : list number).

(** The request with its outcome: the conversion happens in the first
    statement of each of these methods, the native call itself. *)
Definition perform (r : request) : M unit :=
  match r with
  | converted i => invoke i
  | position_is value =>
      property_assign prop_position
        (v <- binding (as_vector value) ;; set_position v)
  | focal_point_is point =>
      property_assign prop_focal_point
        (p <- binding (as_vector point) ;; set_focal_point p)
  | thickness_is length =>
      property_assign prop_thickness
        (t <- binding (as_double length) ;; set_thickness t)
  | parallel_scale_is scale =>
      property_assign prop_parallel_scale
        (x <- binding (as_double scale) ;; set_parallel_scale x)
  | zoom_by value => z <- binding (as_double value) ;; zoom z
  | up_to vector =>
      v <- binding (as_vector vector) ;; forget (up (Some (Some v)))
  end.

(** The exception of a conversion, if any. *)
Definition verdict {A : Type} (c : result A) : option exn :=
  match c with
  | Ok _ => None
  | Raise x => Some x
  end.

(** What the binding answers to the argument of a request that converts
    one. *)
Definition refusal (r : request) : option exn :=
  match r with
  | converted _ => None
  | position_is value => verdict (as_vector value)
  | focal_point_is point => verdict (as_vector point)
  | thickness_is length => verdict (as_double length)
  | parallel_scale_is scale => verdict (as_double scale)
  | zoom_by value => verdict (as_double value)
  | up_to vector => verdict (as_vector vector)
  end.

(** The requests that enable or disable the parallel projection. *)
Definition request_toggles (r : request) : bool :=
  match r with
  | converted i => toggles_projection i
  | _ => false
  end.

(** ** Assumptions on the native camera *)

(** The native call [f] leaves the native reading [g] as it was. *)
Definition keeps {A : Type} (g : native -> A) (f : native -> native) : Prop :=
  forall n, g (f n) = g n.

(** The native setters the wrapper calls, [SetPosition] and [SetFocalPoint]
    apart, leave the native reading [g] as it was. *)
Definition untouched_by_others (g : native -> Vector) : Prop :=
  (forall m, keeps g (SetModelTransformMatrix m))
  /\ (forall t, keeps g (SetThickness t))
  /\ (forall s, keeps g (SetParallelScale s))
  /\ (forall z, keeps g (Zoom z))
  /\ (forall v, keeps g (SetViewUp v))
  /\ (forall f, keeps g (fun n => fst (SetParallelProjection f n)))
  /\ (forall a b, keeps g (SetClippingRange a b)).

Definition position_is_private : Prop :=
  untouched_by_others GetPosition
  /\ (forall p, keeps GetPosition (SetFocalPoint p)).

Definition focal_point_is_private : Prop :=
  untouched_by_others GetFocalPoint
  /\ (forall v, keeps GetFocalPoint (SetPosition v)).

End CameraClass.

Declare Scope camera_scope.
Delimit Scope camera_scope with camera.
Notation "x <- m ;; k" := (bind m (fun x => k))
  (at level 61, m at next level, right associativity) : camera_scope.
Notation "m ;; k" := (bind m (fun _ => k))
  (at level 61, right associativity) : camera_scope.

(** ** Double arithmetic and a plain native camera *)

Definition fadd : double -> double -> double := SFadd prec64 emax64.
Definition fsub : double -> double -> double := SFsub prec64 emax64.
Definition fmul : double -> double -> double := SFmul prec64 emax64.
Definition fdiv : double -> double -> double := SFdiv prec64 emax64.
Definition fsqrt : double -> double := SFsqrt prec64 emax64.

(** The distance from [pos] to [focal] as the native camera computes it:
    the square root of the sum of the squared coordinate differences. *)
Definition euclidean_distance (pos focal : Vector) : double :=
  let '(px, py, pz) := pos in
  let '(fx, fy, fz) := focal in
  let dx := fsub fx px in
  let dy := fsub fy py in
  let dz := fsub fz pz in
  fsqrt (fadd (fadd (fmul dx dx) (fmul dy dy)) (fmul dz dz)).

(** The 4x4 identity, as a native matrix and as the array [np.eye(4)]. *)
Definition d0 : double := S754_zero false.
Definition d1 : double := double_of_Z 1.

Definition identity_matrix : vtkMatrix4x4 :=
  Matrix4x4 d1 d0 d0 d0
            d0 d1 d0 d0
            d0 d0 d1 d0
            d0 d0 d0 d1.

Definition np_eye4 : ndarray :=
  {| shape := [4%nat; 4%nat];
     data := map PyFloat (elements identity_matrix) |}.

(** An idealised native camera that keeps what it is given and transforms
    nothing: the reference instance the general statements are run on.  It
    is not [vtkCamera]: that one normalises the up vector, keeps the far
    clipping plane and the focal point a minimal distance away, and so does
    not report every value as it was given. *)
Module Plain.

Record state := mk_state {
  pos : Vector;
  focal : Vector;
  view_up : Vector;
  matrix : vtkMatrix4x4;
  view_angle : double;
  scale : double;
  parallel : Z;
  clip : double * double;
  observers : list nat
}.

Definition set_pos v s :=
  mk_state v (focal s) (view_up s) (matrix s) (view_angle s) (scale s)
           (parallel s) (clip s) (observers s).
Definition set_focal v s :=
  mk_state (pos s) v (view_up s) (matrix s) (view_angle s) (scale s)
           (parallel s) (clip s) (observers s).
Definition set_view_up v s :=
  mk_state (pos s) (focal s) v (matrix s) (view_angle s) (scale s)
           (parallel s) (clip s) (observers s).
Definition set_matrix m s :=
  mk_state (pos s) (focal s) (view_up s) m (view_angle s) (scale s)
           (parallel s) (clip s) (observers s).
Definition set_scale x s :=
  mk_state (pos s) (focal s) (view_up s) (matrix s) (view_angle s) x
           (parallel s) (clip s) (observers s).
Definition set_view_angle x s :=
  mk_state (pos s) (focal s) (view_up s) (matrix s) x (scale s)
           (parallel s) (clip s) (observers s).
Definition set_parallel b s :=
  mk_state (pos s) (focal s) (view_up s) (matrix s) (view_angle s) (scale s)
           b (clip s) (observers s).
(** The binding's conversion to [vtkTypeBool] (a C [int]): booleans and the
    integers of the C [int] range pass, an integer outside it is an
    [OverflowError], anything else a [TypeError]; a refused call leaves the
    native state as it is. *)
Definition set_parallel_projection (v : value) s : state * option exn :=
  match v with
  | VBool b => (set_parallel (if b then 1 else 0) s, None)
  | VNum (PyInt z) =>
      if (- 2 ^ 31 <=? z) && (z <? 2 ^ 31)
      then (set_parallel z s, None)
      else (s, Some OverflowError)
  | _ => (s, Some TypeError)
  end.
Definition set_clip near far s :=
  mk_state (pos s) (focal s) (view_up s) (matrix s) (view_angle s) (scale s)
           (parallel s) (near, far) (observers s).
Definition set_thickness t s := set_clip (fst (clip s)) (fadd (fst (clip s)) t) s.
Definition zoom amount s :=
  if parallel s =? 0
  then set_view_angle (fdiv (view_angle s) amount) s
  else set_scale (fdiv (scale s) amount) s.
Definition remove_all_observers s :=
  mk_state (pos s) (focal s) (view_up s) (matrix s) (view_angle s) (scale s)
           (parallel s) (clip s) [].

Definition camera : vtkCamera := {|
  native := state;
  GetPosition := pos;
  SetPosition := set_pos;
  GetFocalPoint := focal;
  SetFocalPoint := set_focal;
  GetModelTransformMatrix := matrix;
  SetModelTransformMatrix := set_matrix;
  GetDistance := fun s => euclidean_distance (pos s) (focal s);
  GetThickness := fun s => fsub (snd (clip s)) (fst (clip s));
  SetThickness := set_thickness;
  GetParallelScale := scale;
  SetParallelScale := set_scale;
  Zoom := zoom;
  GetViewUp := view_up;
  SetViewUp := set_view_up;
  SetParallelProjection := set_parallel_projection;
  GetClippingRange := clip;
  SetClippingRange := set_clip;
  Observers := observers;
  RemoveAllObservers := remove_all_observers
|}.

(** A freshly created camera, with two observers registered on it. *)
Definition fresh : state :=
  {| pos := (d0, d0, d1);
     focal := (d0, d0, d0);
     view_up := (d0, d1, d0);
     matrix := identity_matrix;
     view_angle := double_of_Z 30;
     scale := d1;
     parallel := 0;
     clip := (double_of_Z 1, double_of_Z 1000);
     observers := [1%nat; 2%nat] |}.

End Plain.

(** The plain camera with the [SetViewUp] of [vtkCamera], which normalises
    the vector it is given and replaces a vector of norm zero by
    [(0, 1, 0)]. *)
Module Normalizing.

Definition normalize (v : Vector) : Vector :=
  let '(x, y, z) := v in
  let norm := fsqrt (fadd (fadd (fmul x x) (fmul y y)) (fmul z z)) in
  if SFeqb norm d0
  then (d0, d1, d0)
  else (fdiv x norm, fdiv y norm, fdiv z norm).

Definition set_view_up (v : Vector) (s : Plain.state) : Plain.state :=
  Plain.set_view_up (normalize v) s.

Definition camera : vtkCamera := {|
  native := Plain.state;
  GetPosition := Plain.pos;
  SetPosition := Plain.set_pos;
  GetFocalPoint := Plain.focal;
  SetFocalPoint := Plain.set_focal;
  GetModelTransformMatrix := Plain.matrix;
  SetModelTransformMatrix := Plain.set_matrix;
  GetDistance := fun s => euclidean_distance (Plain.pos s) (Plain.focal s);
  GetThickness := fun s => fsub (snd (Plain.clip s)) (fst (Plain.clip s));
  SetThickness := Plain.set_thickness;
  GetParallelScale := Plain.scale;
  SetParallelScale := Plain.set_scale;
  Zoom := Plain.zoom;
  GetViewUp := Plain.view_up;
  SetViewUp := set_view_up;
  SetParallelProjection := Plain.set_parallel_projection;
  GetClippingRange := Plain.clip;
  SetClippingRange := Plain.set_clip;
  Observers := Plain.observers;
  RemoveAllObservers := Plain.remove_all_observers
|}.

End Normalizing.


(** A camera built on the plain native camera. *)
Definition plain_camera : @Camera Plain.camera :=
  @__init__ Plain.camera Plain.fresh.

(** The same camera after its native matrix was zeroed. *)
Definition zeroed_camera : @Camera Plain.camera :=
  @with_engine Plain.camera
    (Plain.set_matrix
       (Matrix4x4 d0 d0 d0 d0 d0 d0 d0 d0 d0 d0 d0 d0 d0 d0 d0 d0)
       Plain.fresh)
    plain_camera.

(** The vectors [(1, 2, 3)] and [(0, 0, 0)] as the binding passes them. *)
Definition v123 : Vector :=
  (to_double (PyInt 1), to_double (PyInt 2), to_double (PyInt 3)).

Definition origin : Vector :=
  (to_double (PyInt 0), to_double (PyInt 0), to_double (PyInt 0)).

(** A history that assigns the position and later moves the native camera
    behind the wrapper's back. *)
Definition detour_tail : list (@invocation Plain.camera) :=
  [@do_zoom Plain.camera (double_of_Z 2);
   @get_position Plain.camera;
   @put_focal_point Plain.camera v123;
   @inherited Plain.camera (Plain.set_pos origin)].

Definition detour : list (@invocation Plain.camera) :=
  @put_position Plain.camera v123 :: detour_tail.

(** A history that goes through the wrapper only. *)
Definition wrapper_only : list (@invocation Plain.camera) :=
  [@put_position Plain.camera v123;
   @do_zoom Plain.camera (double_of_Z 2);
   @put_focal_point Plain.camera origin;
   @put_clipping_range Plain.camera [PyInt 2; PyInt 50];
   @do_up Plain.camera (Some (Some v123));
   @do_enable_parallel_projection Plain.camera None;
   @put_thickness Plain.camera (double_of_Z 7);
   @put_parallel_scale Plain.camera (double_of_Z 3);
   @do_disable_parallel_projection Plain.camera].

(** A camera on the same native state with other cached attributes. *)
Definition stale_camera : @Camera Plain.camera :=
  @mk_Camera Plain.camera Plain.fresh v123 v123 VNone (Some VNone).

(** A refused assignment of the clipping range. *)
Definition reversed_range : @request Plain.camera :=
  @converted Plain.camera
    (@put_clipping_range Plain.camera [PyInt 10; PyInt 1]).

(** An assignment of a position with a coordinate beyond the doubles. *)
Definition overflowing_position : @request Plain.camera :=
  @position_is Plain.camera [PyInt (2 ^ 1024); PyInt 0; PyInt 0].



(** A history of reads. *)
Definition reads_only : list (@invocation Plain.camera) :=
  [@get_position Plain.camera;
   @get_thickness Plain.camera;
   @do_up Plain.camera None;
   @get_model_transform_matrix Plain.camera (fun _ => d0);
   @get_clipping_range Plain.camera;
   @do_up Plain.camera (Some None);
   @get_distance Plain.camera].


(** * Properties *)

Local Open Scope camera_scope.

Section CameraFacts.

Context {vtk : vtkCamera}.

(** ** Comparison of numbers *)

Lemma py_le_not_gt (a b : number) : py_le a b = true -> py_gt a b = false.
Proof.
  unfold py_le, py_gt.
  destruct (number_compare a b) as [[ | | ] | ]; intros H;
    solve [reflexivity | discriminate H].
Qed.

Lemma py_gt_not_le (a b : number) : py_gt a b = true -> py_le a b = false.
Proof.
  unfold py_le, py_gt.
  destruct (number_compare a b) as [[ | | ] | ]; intros H;
    solve [reflexivity | discriminate H].
Qed.

Lemma SFcompare_antisym (x y : double) :
  SFcompare y x = option_map CompOpp (SFcompare x y).
Proof.
  destruct x as [sx | sx | | sx mx ex], y as [sy | sy | | sy my ey]; simpl;
    try reflexivity;
    try (destruct sx; reflexivity);
    try (destruct sy; reflexivity);
    try (destruct sx, sy; reflexivity).
  destruct sx, sy; simpl; try reflexivity;
    rewrite (Z.compare_antisym ex ey);
    destruct (ex ?= ey); simpl; try reflexivity;
    change (Pos.compare_cont Eq my mx) with (Pos.compare my mx);
    change (Pos.compare_cont Eq mx my) with (Pos.compare mx my);
    rewrite (Pos.compare_antisym mx my);
    destruct (mx ?= my)%positive; reflexivity.
Qed.

Lemma number_compare_antisym (a b : number) :
  number_compare b a = option_map CompOpp (number_compare a b).
Proof.
  destruct a as [x | x], b as [y | y]; simpl.
  - now rewrite (Z.compare_antisym x y).
  - destruct (float_cmp_int y x) as [[ | | ] | ]; reflexivity.
  - reflexivity.
  - apply SFcompare_antisym.
Qed.

Lemma py_gt_asym (a b : number) : py_gt a b = true -> py_gt b a = false.
Proof.
  unfold py_gt. rewrite (number_compare_antisym a b).
  destruct (number_compare a b) as [[ | | ] | ]; simpl; intros H;
    solve [reflexivity | discriminate H].
Qed.

Lemma py_gt_irrefl (a : number) : py_gt a a = false.
Proof.
  destruct (py_gt a a) eqn:H; [ | reflexivity].
  now rewrite (py_gt_asym a a H) in H.
Qed.

(** ** Assignments to properties *)

(** An assignment to a property that has a setter is a run of the setter. *)
Lemma property_assign_setter (p : property) (fset : M unit) :
  has_setter p = true -> property_assign p fset = fset.
Proof. unfold property_assign. now intros ->. Qed.

Lemma property_assign_read_only (p : property) (fset : M unit)
      (self : Camera) :
  has_setter p = false ->
  property_assign p fset self = (self, Raise AttributeError).
Proof. unfold property_assign. now intros ->. Qed.

(** ** Conversions by the binding *)

Lemma as_double_to_double (n : number) (d : double) :
  as_double n = Ok d -> d = to_double n.
Proof.
  destruct n as [z | f]; simpl.
  - destruct (double_of_Z z); intros H; now inversion H.
  - intros H; now inversion H.
Qed.

Lemma as_double_cases (n : number) :
  as_double n = Ok (to_double n) \/ as_double n = Raise OverflowError.
Proof.
  destruct n as [z | f]; simpl; [ | now left].
  destruct (double_of_Z z); auto.
Qed.

(** ** The clipping range *)

Lemma set_clipping_range_cons2 (near far : number) (rest : list number)
      (self : Camera) :
  set_clipping_range (near :: far :: rest) self
  = if py_gt near far
    then (self, Raise (ValueError "Near point should lower than far point."))
    else match as_double near, as_double far with
         | Ok a, Ok b =>
             (with_engine (SetClippingRange a b (engine self)) self, Ok tt)
         | Ok _, Raise x => (self, Raise x)
         | Raise x, _ => (self, Raise x)
         end.
Proof.
  unfold set_clipping_range, bind, getitem, binding; simpl.
  destruct (py_gt near far); [reflexivity | ].
  destruct (as_double near); [ | reflexivity].
  destruct (as_double far); reflexivity.
Qed.

(** C1 (amended claim).  The [clipping_range] setter on a pair [(near, far)]:
    when [near > far] it raises the [ValueError] about the near/far order and
    the object, native part included, is the one before the call.  When
    [near <= far] and both bounds convert to C doubles it returns normally,
    the native camera has received [SetClippingRange] on the two doubles and
    nothing else changed, and a following read of [clipping_range] returns
    what the native camera then reports, which is the pair of doubles when
    the native camera reports this pair as given.  When [near <= far] and a
    bound is an [int] beyond the range of a double, it raises
    [OverflowError] and the object is the one before the call. *)
Theorem clipping_range_setter_checks_order :
  forall (near far : number) (self : Camera),
    (py_gt near far = true ->
       set_clipping_range [near; far] self
       = (self, Raise (ValueError "Near point should lower than far point.")))
    /\
    (py_le near far = true ->
       (forall a b,
          as_double near = Ok a ->
          as_double far = Ok b ->
          let self' :=
            with_engine (SetClippingRange a b (engine self)) self in
          (a = to_double near /\ b = to_double far)
          /\ set_clipping_range [near; far] self = (self', Ok tt)
          /\ (set_clipping_range [near; far] ;; clipping_range) self
             = (self', Ok (GetClippingRange (engine self')))
          /\ (GetClippingRange (SetClippingRange a b (engine self)) = (a, b) ->
              (set_clipping_range [near; far] ;; clipping_range) self
              = (self', Ok (a, b))))
       /\ ((as_double near = Raise OverflowError
            \/ as_double far = Raise OverflowError) ->
           set_clipping_range [near; far] self = (self, Raise OverflowError))).
Proof.
  intros near far self; split.
  - intros Hgt. rewrite set_clipping_range_cons2, Hgt. reflexivity.
  - intros Hle. apply py_le_not_gt in Hle. split.
    + intros a b Ha Hb self'.
      assert (Hset : set_clipping_range [near; far] self = (self', Ok tt)).
      { rewrite set_clipping_range_cons2, Hle, Ha, Hb. reflexivity. }
      split; [split; now apply as_double_to_double | ].
      split; [exact Hset | split].
      * unfold bind. rewrite Hset. reflexivity.
      * intros Hstore. unfold bind. rewrite Hset.
        unfold clipping_range, query. subst self'; simpl.
        rewrite Hstore. reflexivity.
    + rewrite set_clipping_range_cons2, Hle.
      intros [H | H]; rewrite H; [reflexivity | ].
      destruct (as_double_cases near) as [H' | H']; rewrite H'; reflexivity.
Qed.

(** C10. The [clipping_range] setter indexes [points] at 0 and 1 with no
    guard: on a sequence of fewer than two elements it raises [IndexError]
    (not the [ValueError]) and the object, native part included, is the one
    before the call.  On a sequence of two or more elements only the first
    two count: they are compared, and refused with the [ValueError] when the
    first is greater; otherwise these two are handed to [SetClippingRange]
    (as doubles, the binding raising [OverflowError] for an [int] that does
    not fit) and the other elements are never looked at. *)
Theorem clipping_range_setter_indexes_unguarded :
  forall (points : list number) (self : Camera),
    ((List.length points < 2)%nat ->
       set_clipping_range points self = (self, Raise IndexError))
    /\
    (forall near far rest,
       points = near :: far :: rest ->
       set_clipping_range points self
       = (if py_gt near far
          then (self,
                Raise (ValueError "Near point should lower than far point."))
          else match as_double near, as_double far with
               | Ok a, Ok b =>
                   (with_engine (SetClippingRange a b (engine self)) self,
                    Ok tt)
               | Ok _, Raise x => (self, Raise x)
               | Raise x, _ => (self, Raise x)
               end)
       /\ set_clipping_range points self = set_clipping_range [near; far] self).
Proof.
  intros points self; split.
  - intros Hlen.
    destruct points as [ | a [ | b rest]]; simpl in Hlen;
      solve [reflexivity | lia].
  - intros near far rest ->.
    split; [apply set_clipping_range_cons2 | ].
    now rewrite !set_clipping_range_cons2.
Qed.

(** ** Position and focal point *)

Lemma set_position_run (v : Vector) (self : Camera) :
  set_position v self
  = (mk_Camera (SetPosition v (engine self))
               (GetPosition (SetPosition v (engine self)))
               (_focus self) (_is_parallel_projection self) (parent self),
     Ok tt).
Proof. reflexivity. Qed.

Lemma set_focal_point_run (p : Vector) (self : Camera) :
  set_focal_point p self
  = (mk_Camera (SetFocalPoint p (engine self))
               (_position self)
               (GetFocalPoint (SetFocalPoint p (engine self)))
               (_is_parallel_projection self) (parent self),
     Ok tt).
Proof. reflexivity. Qed.

(** C2. Setting [position = v] hands [v] to the native camera and caches
    what the native camera then reports, so the next read of [position]
    returns that re-read (not [v] itself); reading does not change the object,
    so reading again returns the same; and on a native camera whose position
    is unchanged when its own position is handed back to it, writing the value
    just read back leaves the value read unchanged.  The same holds for
    [focal_point]. *)
Theorem position_and_focal_point_round_trip :
  forall (v : Vector) (self : Camera),
    let e := SetPosition v (engine self) in
    let s := mk_Camera e (GetPosition e) (_focus self)
                       (_is_parallel_projection self) (parent self) in
    let e' := SetFocalPoint v (engine self) in
    let s' := mk_Camera e' (_position self) (GetFocalPoint e')
                        (_is_parallel_projection self) (parent self) in
    (set_position v self = (s, Ok tt)
     /\ (set_position v ;; position) self = (s, Ok (GetPosition e))
     /\ (set_position v ;; position ;; position) self = (s, Ok (GetPosition e))
     /\ ((forall n, GetPosition (SetPosition (GetPosition n) n) = GetPosition n) ->
         (set_position v ;; p <- position ;; set_position p ;; position) self
         = (with_engine (SetPosition (GetPosition e) e) s, Ok (GetPosition e))))
    /\
    (set_focal_point v self = (s', Ok tt)
     /\ (set_focal_point v ;; focal_point) self = (s', Ok (GetFocalPoint e'))
     /\ (set_focal_point v ;; focal_point ;; focal_point) self
        = (s', Ok (GetFocalPoint e'))
     /\ ((forall n, GetFocalPoint (SetFocalPoint (GetFocalPoint n) n)
                    = GetFocalPoint n) ->
         (set_focal_point v ;; p <- focal_point ;; set_focal_point p ;;
          focal_point) self
         = (with_engine (SetFocalPoint (GetFocalPoint e') e') s',
            Ok (GetFocalPoint e')))).
Proof.
  intros v self e s e' s'.
  split; (split; [reflexivity | split; [reflexivity | split; [reflexivity | ]]]).
  - intros Hfix. unfold bind; simpl. unfold with_engine; simpl.
    fold e. rewrite Hfix. reflexivity.
  - intros Hfix. unfold bind; simpl. unfold with_engine; simpl.
    fold e'. rewrite Hfix. reflexivity.
Qed.

(** ** Histories *)

Lemma run_app (h1 h2 : list invocation) (self : Camera) :
  run (h1 ++ h2) self = run h2 (run h1 self).
Proof. apply fold_left_app. Qed.

Lemma with_engine_attrs (e : native) (self : Camera) :
  _position (with_engine e self) = _position self
  /\ _focus (with_engine e self) = _focus self
  /\ _is_parallel_projection (with_engine e self)
     = _is_parallel_projection self
  /\ parent (with_engine e self) = parent self.
Proof. repeat split. Qed.

Lemma set_clipping_range_attrs (points : list number) (self : Camera) :
  exists e, fst (set_clipping_range points self) = with_engine e self.
Proof.
  destruct points as [ | a [ | b rest]].
  - exists (engine self). destruct self; reflexivity.
  - exists (engine self). destruct self; reflexivity.
  - rewrite set_clipping_range_cons2.
    destruct (py_gt a b);
      [ | destruct (as_double a); [destruct (as_double b) | ]];
      try (exists (engine self); destruct self; reflexivity).
    eexists; reflexivity.
Qed.

(** What one invocation leaves alone. *)
Lemma step_frame (i : invocation) (self : Camera) :
  (writes_position i = false -> _position (step self i) = _position self)
  /\ (writes_focal_point i = false -> _focus (step self i) = _focus self)
  /\ (toggles_projection i = false ->
      _is_parallel_projection (step self i) = _is_parallel_projection self).
Proof.
  destruct i; simpl; unfold after, property_assign; simpl;
    repeat split; intros H; try discriminate H; try reflexivity.
  all: try (unfold set_model_transform_matrix;
            destruct (DeepCopy_from (ravel m)); reflexivity).
  all: try (destruct arg as [[v | ] | ]; reflexivity).
  all: try (unfold enable_parallel_projection, bind, call_raising; simpl;
            destruct (SetParallelProjection _ _) as [e r]; reflexivity).
  all: try (unfold disable_parallel_projection, enable_parallel_projection,
              bind, call_raising; simpl;
            destruct (SetParallelProjection _ _) as [e r]; reflexivity).
  all: destruct (set_clipping_range_attrs points self) as [e ->]; reflexivity.
Qed.

Lemma run_keeps_position (history : list invocation) (self : Camera) :
  existsb writes_position history = false ->
  _position (run history self) = _position self.
Proof.
  revert self; induction history as [ | i history IH]; intros self H.
  - reflexivity.
  - simpl in H. apply orb_false_iff in H as [Hi Hrest].
    simpl. rewrite (IH _ Hrest). now apply step_frame.
Qed.

Lemma run_keeps_focus (history : list invocation) (self : Camera) :
  existsb writes_focal_point history = false ->
  _focus (run history self) = _focus self.
Proof.
  revert self; induction history as [ | i history IH]; intros self H.
  - reflexivity.
  - simpl in H. apply orb_false_iff in H as [Hi Hrest].
    simpl. rewrite (IH _ Hrest). now apply step_frame.
Qed.

Lemma run_keeps_projection (history : list invocation) (self : Camera) :
  existsb toggles_projection history = false ->
  _is_parallel_projection (run history self) = _is_parallel_projection self.
Proof.
  revert self; induction history as [ | i history IH]; intros self H.
  - reflexivity.
  - simpl in H. apply orb_false_iff in H as [Hi Hrest].
    simpl. rewrite (IH _ Hrest). now apply step_frame.
Qed.

(** C3. In every state reached from [__init__] by a history of uses, the
    cached position is the native position read at construction when the
    history has no [position] assignment, and otherwise the native position
    read right after the last [position] assignment (which followed
    [SetPosition] on the native camera); likewise for the focal point.  The
    two getters return the cached attributes, leave the object as it is and
    do not depend on the native part. *)
Theorem cached_vectors_are_last_read_back :
  forall (e0 : native) (history : list invocation),
    let self := run history (__init__ e0) in
    reachable self
    /\ (existsb writes_position history = false ->
        _position self = GetPosition e0)
    /\ (forall before v later,
          history = before ++ put_position v :: later ->
          existsb writes_position later = false ->
          let prior := run before (__init__ e0) in
          let then_ := run (before ++ [put_position v]) (__init__ e0) in
          engine then_ = SetPosition v (engine prior)
          /\ _position self = GetPosition (engine then_))
    /\ (existsb writes_focal_point history = false ->
        _focus self = GetFocalPoint e0)
    /\ (forall before p later,
          history = before ++ put_focal_point p :: later ->
          existsb writes_focal_point later = false ->
          let prior := run before (__init__ e0) in
          let then_ := run (before ++ [put_focal_point p]) (__init__ e0) in
          engine then_ = SetFocalPoint p (engine prior)
          /\ _focus self = GetFocalPoint (engine then_))
    /\ position self = (self, Ok (_position self))
    /\ focal_point self = (self, Ok (_focus self))
    /\ (forall e, snd (position (with_engine e self)) = snd (position self))
    /\ (forall e, snd (focal_point (with_engine e self))
                  = snd (focal_point self)).
Proof.
  intros e0 history self.
  split; [exists e0, history; reflexivity | ].
  split; [intros H; subst self; now rewrite run_keeps_position | ].
  split.
  { intros before v later -> Hlater prior then_.
    assert (Hthen : then_ = step prior (put_position v)).
    { subst then_ prior. now rewrite run_app. }
    split; [rewrite Hthen; reflexivity | ].
    subst self.
    replace (before ++ put_position v :: later)
      with ((before ++ [put_position v]) ++ later)
      by (rewrite <- app_assoc; reflexivity).
    rewrite run_app. fold then_.
    rewrite (run_keeps_position later then_ Hlater).
    rewrite Hthen. reflexivity. }
  split; [intros H; subst self; now rewrite run_keeps_focus | ].
  split.
  { intros before p later -> Hlater prior then_.
    assert (Hthen : then_ = step prior (put_focal_point p)).
    { subst then_ prior. now rewrite run_app. }
    split; [rewrite Hthen; reflexivity | ].
    subst self.
    replace (before ++ put_focal_point p :: later)
      with ((before ++ [put_focal_point p]) ++ later)
      by (rewrite <- app_assoc; reflexivity).
    rewrite run_app. fold then_.
    rewrite (run_keeps_focus later then_ Hlater).
    rewrite Hthen. reflexivity. }
  repeat split.
Qed.

(** ** The projection flag *)

Lemma enable_parallel_projection_run (arg : option value) (self : Camera) :
  let flag := default (VBool true) arg in
  let out := SetParallelProjection flag (engine self) in
  enable_parallel_projection arg self
  = (mk_Camera (fst out) (_position self) (_focus self) flag (parent self),
     match snd out with
     | None => Ok tt
     | Some x => Raise x
     end).
Proof.
  intros flag out.
  unfold enable_parallel_projection, bind, call_raising; simpl.
  fold flag. fold out. destruct out as [e r]. reflexivity.
Qed.

(** C4. [is_parallel_projection] has no setter (assigning to it raises and
    changes nothing); it returns the cached flag, leaves the object as it is
    and does not depend on the native part.  After
    [enable_parallel_projection()] it returns [True], after
    [disable_parallel_projection()] it returns [False], and it keeps
    returning the flag of the last enable/disable call through any later use
    that is not an enable/disable call.  [disable_parallel_projection()] is
    [enable_parallel_projection(False)], and both hand the flag to the native
    camera. *)
Theorem is_parallel_projection_follows_enable_disable :
  forall (self : Camera),
    (has_setter prop_is_parallel_projection = false
     /\ forall fset,
          property_assign prop_is_parallel_projection fset self
          = (self, Raise AttributeError))
    /\ is_parallel_projection self = (self, Ok (_is_parallel_projection self))
    /\ (forall e, snd (is_parallel_projection (with_engine e self))
                  = snd (is_parallel_projection self))
    /\ snd (is_parallel_projection
              (after (enable_parallel_projection None) self))
       = Ok (VBool true)
    /\ snd (is_parallel_projection (after disable_parallel_projection self))
       = Ok (VBool false)
    /\ (forall arg later,
          existsb toggles_projection later = false ->
          snd (is_parallel_projection
                 (run later (after (enable_parallel_projection arg) self)))
          = Ok (default (VBool true) arg))
    /\ (forall later,
          existsb toggles_projection later = false ->
          snd (is_parallel_projection
                 (run later (after disable_parallel_projection self)))
          = Ok (VBool false))
    /\ disable_parallel_projection self
       = enable_parallel_projection (Some (VBool false)) self
    /\ (forall arg,
          engine (after (enable_parallel_projection arg) self)
          = fst (SetParallelProjection (default (VBool true) arg)
                                       (engine self))).
Proof.
  intros self.
  assert (Hflag : forall arg,
             _is_parallel_projection
               (after (enable_parallel_projection arg) self)
             = default (VBool true) arg).
  { intros arg. unfold after.
    rewrite enable_parallel_projection_run. reflexivity. }
  split; [split; [reflexivity | intros fset; reflexivity] | ].
  split; [reflexivity | ].
  split; [intros e; reflexivity | ].
  split; [unfold is_parallel_projection, read; simpl; now rewrite Hflag | ].
  split.
  { unfold disable_parallel_projection, is_parallel_projection, read; simpl.
    now rewrite Hflag. }
  split.
  { intros arg later Hlater.
    unfold is_parallel_projection, read; simpl.
    now rewrite run_keeps_projection, Hflag. }
  split.
  { intros later Hlater.
    unfold disable_parallel_projection, is_parallel_projection, read; simpl.
    now rewrite run_keeps_projection, Hflag. }
  split; [reflexivity | ].
  intros arg. unfold after.
  rewrite enable_parallel_projection_run. reflexivity.
Qed.

(** C9. [enable_parallel_projection(f)] stores [f] itself in the cached
    flag, whatever the native call then does: for every object [f], [None]
    included, [is_parallel_projection] afterwards returns [f]; so for an [f]
    that is not a boolean it returns a non-boolean. *)
Theorem enable_parallel_projection_stores_the_argument :
  forall (f : value) (self : Camera),
    let self' := after (enable_parallel_projection (Some f)) self in
    _is_parallel_projection self' = f
    /\ is_parallel_projection self' = (self', Ok f)
    /\ ((forall b, f <> VBool b) ->
        forall b, snd (is_parallel_projection self') <> Ok (VBool b)).
Proof.
  intros f self self'.
  assert (Hflag : _is_parallel_projection self' = f).
  { subst self'. unfold after.
    rewrite enable_parallel_projection_run. reflexivity. }
  split; [exact Hflag | split].
  - unfold is_parallel_projection, read. now rewrite Hflag.
  - intros Hnb b. unfold is_parallel_projection, read; simpl.
    rewrite Hflag. intros Heq. apply (Hnb b). now injection Heq.
Qed.

(** ** The up vector *)


(** ** The model transform matrix *)

Lemma DeepCopy_from_elements (flat : list number) (m : vtkMatrix4x4) :
  DeepCopy_from flat = Some m -> elements m = map to_double flat.
Proof.
  unfold DeepCopy_from.
  destruct (map to_double flat) as [ | e00 l]; [discriminate | ].
  do 15 (destruct l as [ | ? l]; [discriminate | ]).
  destruct l; [ | discriminate].
  intros H; injection H as <-. reflexivity.
Qed.

Lemma model_transform_matrix_run (uninit : nat -> double) (self : Camera) :
  model_transform_matrix uninit self
  = (self,
     Ok {| shape := [4%nat; 4%nat];
           data := map PyFloat
                       (elements (GetModelTransformMatrix (engine self))) |}).
Proof.
  unfold model_transform_matrix, bind, query, ret, DeepCopy_into, ravel; simpl.
  now rewrite app_nil_r.
Qed.

(** C6. The [model_transform_matrix] getter returns a fresh 4x4 array holding
    the sixteen elements of the native matrix, whatever the fresh memory held,
    and leaves the object as it is; the setter copies sixteen numbers into a
    fresh native matrix, hands it to the native camera and changes no
    attribute.  Writing the 4x4 identity and reading back returns the
    identity on a native camera that reports the matrix it was given. *)
Theorem model_transform_matrix_round_trip :
  forall (uninit : nat -> double) (self : Camera),
    model_transform_matrix uninit self
    = (self,
       Ok {| shape := [4%nat; 4%nat];
             data := map PyFloat
                         (elements (GetModelTransformMatrix (engine self))) |})
    /\ (forall a m,
          DeepCopy_from (ravel a) = Some m ->
          elements m = map to_double (data a)
          /\ set_model_transform_matrix a self
             = (with_engine (SetModelTransformMatrix m (engine self)) self,
                Ok tt))
    /\ set_model_transform_matrix np_eye4 self
       = (with_engine (SetModelTransformMatrix identity_matrix (engine self))
                      self, Ok tt)
    /\ ((forall m n, GetModelTransformMatrix (SetModelTransformMatrix m n) = m) ->
        (set_model_transform_matrix np_eye4 ;; model_transform_matrix uninit)
          self
        = (with_engine (SetModelTransformMatrix identity_matrix (engine self))
                       self, Ok np_eye4)).
Proof.
  intros uninit self.
  split; [apply model_transform_matrix_run | ].
  split.
  { intros a m Hm. split; [now apply DeepCopy_from_elements | ].
    unfold set_model_transform_matrix. now rewrite Hm. }
  split; [reflexivity | ].
  intros Hstore.
  unfold bind.
  replace (set_model_transform_matrix np_eye4 self)
    with (with_engine (SetModelTransformMatrix identity_matrix (engine self))
                      self, Ok tt) by reflexivity.
  rewrite model_transform_matrix_run. simpl. now rewrite Hstore.
Qed.

(** ** Distance *)

(** C7. [distance] has no setter and returns what the native camera
    reports.  On a native camera that keeps the position and the focal point
    it is given and reports the Euclidean distance between them, constructing
    a camera, setting [position = (1, 2, 3)] and [focal_point = (0, 0, 0)]
    and reading [distance] returns the double nearest to the square root of
    14, which lies between 3.741 and 3.743. *)
Theorem distance_of_1_2_3_from_origin :
  forall (self : Camera),
    distance self = (self, Ok (GetDistance (engine self)))
    /\ (has_setter prop_distance = false
        /\ forall fset,
             property_assign prop_distance fset self
             = (self, Raise AttributeError))
    /\ (forall e0,
          (forall v n, GetPosition (SetPosition v n) = v) ->
          (forall p n, GetFocalPoint (SetFocalPoint p n) = p) ->
          (forall p n, GetPosition (SetFocalPoint p n) = GetPosition n) ->
          (forall n, GetDistance n
                     = euclidean_distance (GetPosition n) (GetFocalPoint n)) ->
          snd ((set_position v123 ;; set_focal_point origin ;; distance)
                 (__init__ e0))
          = Ok (fsqrt (double_of_Z 14)))
    /\ (exists m : positive,
          fsqrt (double_of_Z 14) = S754_finite false m (-51)
          /\ Zpos m * Zpos m <= 14 * 2 ^ 102 < (Zpos m + 1) * (Zpos m + 1)
          /\ 3741 * 2 ^ 51 < 1000 * Zpos m < 3743 * 2 ^ 51).
Proof.
  intros self.
  split; [reflexivity | ].
  split; [split; [reflexivity | intros fset; reflexivity] | ].
  split.
  - intros e0 Hpos Hfoc Hframe Hdist.
    unfold bind; simpl. unfold distance, query; simpl.
    rewrite Hdist, Hframe, Hpos, Hfoc.
    vm_compute. reflexivity.
  - exists 8425463406411593%positive.
    split; [vm_compute; reflexivity | ].
    split; vm_compute; split; congruence.
Qed.

(** ** Teardown *)

(** C8. [__del__] calls [RemoveAllObservers] on the native camera and then
    sets [parent] to [None], changing nothing else; on a native camera whose
    [RemoveAllObservers] leaves no observer registered, none is registered
    afterwards. *)
Theorem del_removes_observers_and_clears_parent :
  forall (self : Camera),
    __del__ self
    = (mk_Camera (RemoveAllObservers (engine self)) (_position self)
                 (_focus self) (_is_parallel_projection self) (Some VNone),
       Ok tt)
    /\ parent (after __del__ self) = Some VNone
    /\ ((forall n, Observers (RemoveAllObservers n) = []) ->
        Observers (engine (after __del__ self)) = []).
Proof.
  intros self.
  split; [reflexivity | split; [reflexivity | ]].
  intros Hnone. unfold after, __del__, bind, call, assign_parent; simpl.
  apply Hnone.
Qed.

(** * Further properties of the class *)

(** ** Outcomes of the clipping range setter *)

Lemma set_clipping_range_cases (a b : number) (rest : list number)
      (self : Camera) :
  let r := set_clipping_range (a :: b :: rest) self in
  (py_gt a b = true
   /\ r = (self, Raise (ValueError "Near point should lower than far point.")))
  \/ (py_gt a b = false
      /\ (as_double a = Raise OverflowError
          \/ as_double b = Raise OverflowError)
      /\ r = (self, Raise OverflowError))
  \/ (py_gt a b = false
      /\ as_double a = Ok (to_double a)
      /\ as_double b = Ok (to_double b)
      /\ r = (with_engine
                (SetClippingRange (to_double a) (to_double b) (engine self))
                self, Ok tt)).
Proof.
  intros r; subst r. rewrite set_clipping_range_cons2.
  destruct (py_gt a b); [left; split; reflexivity | right].
  destruct (as_double_cases a) as [Ha | Ha]; rewrite Ha.
  - destruct (as_double_cases b) as [Hb | Hb]; rewrite Hb.
    + right. repeat split.
    + left. repeat split. now right.
  - left. repeat split. now left.
Qed.

(** X1. The [clipping_range] setter has exactly four outcomes, decided by
    [points] alone: [IndexError] exactly when [points] has fewer than two
    elements; the [ValueError] exactly when [points[0] > points[1]];
    [OverflowError] exactly when that comparison is false and one of the two
    is an [int] beyond the range of a double; and a normal return exactly
    when the comparison is false and both convert (so also when a bound is a
    NaN).  Whenever it raises, the object is the one before the call. *)
Theorem clipping_range_setter_outcomes :
  forall (points : list number) (self : Camera),
    let r := set_clipping_range points self in
    (snd r = Raise IndexError <-> (List.length points < 2)%nat)
    /\ (snd r = Raise (ValueError "Near point should lower than far point.")
        <-> exists near far rest,
              points = near :: far :: rest /\ py_gt near far = true)
    /\ (snd r = Raise OverflowError
        <-> exists near far rest,
              points = near :: far :: rest /\ py_gt near far = false
              /\ (as_double near = Raise OverflowError
                  \/ as_double far = Raise OverflowError))
    /\ (snd r = Ok tt
        <-> exists near far rest a b,
              points = near :: far :: rest /\ py_gt near far = false
              /\ as_double near = Ok a /\ as_double far = Ok b)
    /\ (snd r = Ok tt
        \/ snd r = Raise IndexError
        \/ snd r = Raise (ValueError "Near point should lower than far point.")
        \/ snd r = Raise OverflowError)
    /\ (forall x, snd r = Raise x -> fst r = self).
Proof.
  intros points self r; subst r.
  destruct points as [ | a [ | b rest]].
  1, 2: simpl; repeat split; try (intros; simpl; lia); try discriminate;
    try (intros (? & ? & ? & H & _); discriminate H);
    try (intros (? & ? & ? & ? & ? & H & _); discriminate H);
    try (right; left; reflexivity).
  destruct (set_clipping_range_cases a b rest self)
    as [(Hgt & ->) | [(Hgt & Hov & ->) | (Hgt & Ha & Hb & ->)]]; simpl.
  - split; [split; [discriminate | simpl; lia] | ].
    split; [split; [intros _; now exists a, b, rest | reflexivity] | ].
    split.
    { split; [discriminate | ].
      intros (n & f & t & Heq & Hf & _). injection Heq as -> -> ->.
      congruence. }
    split.
    { split; [discriminate | ].
      intros (n & f & t & x & y & Heq & Hf & _). injection Heq as -> -> ->.
      congruence. }
    split; [right; right; left; reflexivity | reflexivity].
  - split; [split; [discriminate | simpl; lia] | ].
    split.
    { split; [discriminate | ].
      intros (n & f & t & Heq & Hf). injection Heq as -> -> ->.
      congruence. }
    split; [split; [intros _; now exists a, b, rest | reflexivity] | ].
    split.
    { split; [discriminate | ].
      intros (n & f & t & x & y & Heq & _ & Hx & Hy).
      injection Heq as -> -> ->.
      destruct Hov; congruence. }
    split; [right; right; right; reflexivity | reflexivity].
  - split; [split; [discriminate | simpl; lia] | ].
    split.
    { split; [discriminate | ].
      intros (n & f & t & Heq & Hf). injection Heq as -> -> ->.
      congruence. }
    split.
    { split; [discriminate | ].
      intros (n & f & t & Heq & _ & Hov). injection Heq as -> -> ->.
      destruct Hov; congruence. }
    split.
    { split; [ | reflexivity].
      intros _. now exists a, b, rest, (to_double a), (to_double b). }
    split; [left; reflexivity | discriminate].
Qed.

(** X2. The order check is strict and one-sided: a pair of equal bounds is
    never refused with the [ValueError], and when [(near, far)] is refused
    with it the swapped pair [(far, near)] is not (the only exception either
    can raise is the [OverflowError] of the conversion).  When both bounds
    convert to doubles, the pair of equal bounds and the swapped pair are
    handed to the native camera. *)
Theorem clipping_range_setter_is_strict :
  forall (near far : number) (self : Camera),
    (forall x, snd (set_clipping_range [near; near] self) = Raise x ->
               x = OverflowError)
    /\ (snd (set_clipping_range [near; far] self)
        = Raise (ValueError "Near point should lower than far point.") ->
        forall x, snd (set_clipping_range [far; near] self) = Raise x ->
                  x = OverflowError)
    /\ (forall a b,
          as_double near = Ok a ->
          as_double far = Ok b ->
          set_clipping_range [near; near] self
          = (with_engine (SetClippingRange a a (engine self)) self, Ok tt)
          /\ (snd (set_clipping_range [near; far] self)
              = Raise (ValueError "Near point should lower than far point.") ->
              set_clipping_range [far; near] self
              = (with_engine (SetClippingRange b a (engine self)) self,
                 Ok tt))).
Proof.
  intros near far self.
  assert (Hswap : snd (set_clipping_range [near; far] self)
                  = Raise (ValueError "Near point should lower than far point.")
                  -> py_gt far near = false).
  { destruct (set_clipping_range_cases near far [] self)
      as [(Hgt & _) | [(_ & _ & ->) | (_ & _ & _ & ->)]];
      [intros _; now apply py_gt_asym | discriminate | discriminate]. }
  split; [ | split].
  - intros x.
    destruct (set_clipping_range_cases near near [] self)
      as [(Hgt & _) | [(_ & _ & ->) | (_ & _ & _ & ->)]].
    + now rewrite py_gt_irrefl in Hgt.
    + simpl. congruence.
    + discriminate.
  - intros Hrefused x. specialize (Hswap Hrefused).
    destruct (set_clipping_range_cases far near [] self)
      as [(Hgt & _) | [(_ & _ & ->) | (_ & _ & _ & ->)]].
    + congruence.
    + simpl. congruence.
    + discriminate.
  - intros a b Ha Hb. split.
    + now rewrite set_clipping_range_cons2, py_gt_irrefl, Ha.
    + intros Hrefused.
      now rewrite set_clipping_range_cons2, (Hswap Hrefused), Hb, Ha.
Qed.

(** ** Sizes of matrices *)




Lemma DeepCopy_from_elements_back (m : vtkMatrix4x4) :
  DeepCopy_from (map PyFloat (elements m)) = Some m.
Proof. destruct m; reflexivity. Qed.


(** X4. What the [model_transform_matrix] getter returns is always accepted
    by the setter: reading the matrix and assigning it back never raises and
    hands the native camera its own matrix, element for element. *)
Theorem model_transform_matrix_read_back_is_accepted :
  forall (uninit : nat -> double) (self : Camera),
    (m <- model_transform_matrix uninit ;; set_model_transform_matrix m) self
    = (with_engine
         (SetModelTransformMatrix (GetModelTransformMatrix (engine self))
                                  (engine self))
         self, Ok tt).
Proof.
  intros uninit self.
  unfold bind. rewrite model_transform_matrix_run.
  unfold set_model_transform_matrix, ravel. cbn [data].
  now rewrite DeepCopy_from_elements_back.
Qed.

(** ** Invocations and their outcomes *)

Lemma forget_fst {A : Type} (m : M A) (self : Camera) :
  fst (forget m self) = fst (m self).
Proof. unfold forget. destruct (m self) as [c [a | x]]; reflexivity. Qed.

Lemma step_invoke (i : invocation) (self : Camera) :
  step self i = fst (invoke i self).
Proof.
  destruct i; simpl; unfold after; try rewrite forget_fst; reflexivity.
Qed.

Lemma invoke_read (i : invocation) (self : Camera) :
  is_read i = true -> invoke i self = (self, Ok tt).
Proof.
  destruct i; simpl; intros H; try discriminate H; try reflexivity.
  destruct arg as [[v | ] | ]; simpl in H; try discriminate H; reflexivity.
Qed.

(** X5. The getters ([position], [focal_point], [model_transform_matrix],
    [is_parallel_projection], [distance], [thickness], [parallel_scale],
    [clipping_range]) and [up] called without a vector never raise and leave
    the object, native part included, exactly as it was; so does any history
    made of them. *)
Theorem reads_leave_the_camera_unchanged :
  forall (self : Camera),
    (forall i, is_read i = true -> invoke i self = (self, Ok tt))
    /\ (forall history,
          forallb is_read history = true -> run history self = self).
Proof.
  intros self; split; [intros i; apply invoke_read | ].
  induction history as [ | i history IH]; intros H; [reflexivity | ].
  simpl in H. apply andb_true_iff in H as [Hi Hrest].
  simpl. rewrite step_invoke, (invoke_read i self Hi). simpl.
  now apply IH.
Qed.

Lemma invoke_engine_only (i : invocation) (c1 c2 : Camera) :
  engine c1 = engine c2 ->
  engine (fst (invoke i c1)) = engine (fst (invoke i c2))
  /\ snd (invoke i c1) = snd (invoke i c2).
Proof.
  destruct c1 as [e1 p1 f1 b1 q1], c2 as [e2 p2 f2 b2 q2]; simpl.
  intros ->.
  destruct i; simpl; unfold property_assign; simpl;
    try (split; reflexivity).
  - unfold set_model_transform_matrix.
    destruct (DeepCopy_from (ravel m)); split; reflexivity.
  - destruct arg as [[v | ] | ]; split; reflexivity.
  - unfold enable_parallel_projection, bind, call_raising; simpl.
    destruct (SetParallelProjection _ e2) as [e r]; split; reflexivity.
  - unfold disable_parallel_projection, enable_parallel_projection, bind,
      call_raising; simpl.
    destruct (SetParallelProjection _ e2) as [e r]; split; reflexivity.
  - destruct points as [ | a [ | b rest]]; try (split; reflexivity).
    rewrite !set_clipping_range_cons2.
    destruct (py_gt a b);
      [ | destruct (as_double a); [destruct (as_double b) | ]];
      split; reflexivity.
Qed.

(** X6. The cached attributes never reach the native camera: two cameras
    with the same native state and any cached position, focal point, flag and
    parent have the same native state after the same history, and every
    invocation then raises the same exception, or none, on both. *)
Theorem native_state_ignores_the_cache :
  forall (history : list invocation) (c1 c2 : Camera),
    engine c1 = engine c2 ->
    engine (run history c1) = engine (run history c2)
    /\ (forall i, snd (invoke i (run history c1))
                  = snd (invoke i (run history c2))).
Proof.
  induction history as [ | i history IH]; intros c1 c2 H.
  - split; [exact H | intros i; now apply invoke_engine_only].
  - simpl. apply IH. rewrite !step_invoke. now apply invoke_engine_only.
Qed.

Lemma step_keeps_parent (i : invocation) (self : Camera) :
  parent (step self i) = parent self.
Proof.
  destruct i; simpl; unfold after, property_assign; simpl; try reflexivity.
  - unfold set_model_transform_matrix.
    destruct (DeepCopy_from (ravel m)); reflexivity.
  - destruct arg as [[v | ] | ]; reflexivity.
  - rewrite enable_parallel_projection_run. reflexivity.
  - unfold disable_parallel_projection.
    rewrite enable_parallel_projection_run. reflexivity.
  - destruct (set_clipping_range_attrs points self) as [e ->]. reflexivity.
Qed.

(** X7. Only [__del__] assigns [parent]: no use of the interface, and no
    direct native call, changes it, so on every camera reached from
    [__init__] the attribute is still unset, and [__del__] then sets it to
    [None]. *)
Theorem parent_is_assigned_by_del_only :
  forall (history : list invocation) (self : Camera) (e0 : native),
    parent (run history self) = parent self
    /\ parent (run history (__init__ e0)) = None
    /\ parent (after __del__ (run history (__init__ e0))) = Some VNone.
Proof.
  intros history self e0.
  assert (Hkeep : forall c, parent (run history c) = parent c).
  { induction history as [ | i history IH]; intros c; [reflexivity | ].
    simpl. now rewrite IH, step_keeps_parent. }
  split; [apply Hkeep | split; [now rewrite Hkeep | reflexivity]].
Qed.

(** ** Coherence of the cached vectors *)

Lemma step_coherent (g : native -> Vector) (i : invocation) (self : Camera)
      (cached : Camera -> Vector) :
  untouched_by_others g ->
  (forall e c, cached (with_engine e c) = cached c) ->
  (forall v c, cached (after (assign_is_parallel_projection v) c) = cached c) ->
  is_inherited i = false ->
  writes_position i = false ->
  writes_focal_point i = false ->
  cached self = g (engine self) ->
  cached (step self i) = cached self
  /\ g (engine (step self i)) = g (engine self).
Proof.
  intros (Hm & Ht & Hs & Hz & Hu & Hf & Hc) Hwith Hflag Hi Hp Hfp Hcoh.
  destruct i; simpl in Hi, Hp, Hfp; try discriminate;
    simpl; unfold after, property_assign; simpl;
    try (split; reflexivity).
  - unfold set_model_transform_matrix.
    destruct (DeepCopy_from (ravel m)) as [vm | ]; simpl;
      [ | split; reflexivity].
    split; [apply Hwith | apply Hm].
  - split; [apply Hwith | apply Ht].
  - split; [apply Hwith | apply Hs].
  - split; [apply Hwith | apply Hz].
  - destruct arg as [[v | ] | ]; simpl; try (split; reflexivity).
    split; [apply Hwith | apply Hu].
  - rewrite enable_parallel_projection_run; simpl.
    split; [ | apply (Hf (default (VBool true) arg) (engine self))].
    rewrite <- (Hflag (default (VBool true) arg) self).
    unfold after, assign_is_parallel_projection; simpl.
    apply (Hwith (fst (SetParallelProjection (default (VBool true) arg)
                                             (engine self)))
                 (mk_Camera (engine self) (_position self) (_focus self)
                            (default (VBool true) arg) (parent self))).
  - unfold disable_parallel_projection.
    rewrite enable_parallel_projection_run; simpl.
    split; [ | apply (Hf (VBool false) (engine self))].
    rewrite <- (Hflag (VBool false) self).
    unfold after, assign_is_parallel_projection; simpl.
    apply (Hwith (fst (SetParallelProjection (VBool false) (engine self)))
                 (mk_Camera (engine self) (_position self) (_focus self)
                            (VBool false) (parent self))).
  - destruct points as [ | a [ | b rest]]; try (split; reflexivity).
    rewrite set_clipping_range_cons2.
    destruct (py_gt a b); simpl; [split; reflexivity | ].
    destruct (as_double a); [destruct (as_double b) | ]; simpl;
      try (split; reflexivity).
    split; [apply Hwith | apply Hc].
Qed.

Lemma step_coherent_position (i : invocation) (self : Camera) :
  position_is_private ->
  is_inherited i = false ->
  _position self = GetPosition (engine self) ->
  _position (step self i) = GetPosition (engine (step self i)).
Proof.
  intros [Hothers Hfocal] Hi Hcoh.
  destruct (writes_position i) eqn:Hp.
  { destruct i; try discriminate Hp. reflexivity. }
  destruct (writes_focal_point i) eqn:Hfp.
  { destruct i; try discriminate Hfp. simpl.
    unfold after, property_assign; simpl.
    rewrite Hcoh. symmetry. apply Hfocal. }
  destruct (step_coherent GetPosition i self _position Hothers
              (fun e c => eq_refl) (fun v c => eq_refl) Hi Hp Hfp Hcoh)
    as [Hc Hg].
  now rewrite Hc, Hg.
Qed.

Lemma step_coherent_focus (i : invocation) (self : Camera) :
  focal_point_is_private ->
  is_inherited i = false ->
  _focus self = GetFocalPoint (engine self) ->
  _focus (step self i) = GetFocalPoint (engine (step self i)).
Proof.
  intros [Hothers Hpos] Hi Hcoh.
  destruct (writes_focal_point i) eqn:Hfp.
  { destruct i; try discriminate Hfp. reflexivity. }
  destruct (writes_position i) eqn:Hp.
  { destruct i; try discriminate Hp. simpl.
    unfold after, property_assign; simpl.
    rewrite Hcoh. symmetry. apply Hpos. }
  destruct (step_coherent GetFocalPoint i self _focus Hothers
              (fun e c => eq_refl) (fun v c => eq_refl) Hi Hp Hfp Hcoh)
    as [Hc Hg].
  now rewrite Hc, Hg.
Qed.

(** X8. As long as a camera is used through the wrapper only (no direct call
    of an inherited native method), and on a native camera whose position is
    changed by [SetPosition] alone among the native setters the wrapper
    calls, the cached position equals the native position in every state
    reached from [__init__], so [position] returns the native camera's
    current position; likewise for the focal point. *)
Theorem cache_is_coherent_through_the_wrapper :
  forall (e0 : native) (history : list invocation),
    forallb (fun i => negb (is_inherited i)) history = true ->
    let self := run history (__init__ e0) in
    (position_is_private ->
     snd (position self) = Ok (GetPosition (engine self)))
    /\ (focal_point_is_private ->
        snd (focal_point self) = Ok (GetFocalPoint (engine self))).
Proof.
  intros e0 history Hwrapper self.
  assert (Hpos : position_is_private ->
                 forall h c, forallb (fun i => negb (is_inherited i)) h = true ->
                             _position c = GetPosition (engine c) ->
                             _position (run h c) = GetPosition (engine (run h c))).
  { intros Hpriv. induction h as [ | i h IH]; intros c Hh Hc; [exact Hc | ].
    simpl in Hh. apply andb_true_iff in Hh as [Hi Hh].
    simpl. apply IH; [exact Hh | ].
    apply step_coherent_position; [exact Hpriv | | exact Hc].
    now destruct (is_inherited i). }
  assert (Hfoc : focal_point_is_private ->
                 forall h c, forallb (fun i => negb (is_inherited i)) h = true ->
                             _focus c = GetFocalPoint (engine c) ->
                             _focus (run h c) = GetFocalPoint (engine (run h c))).
  { intros Hpriv. induction h as [ | i h IH]; intros c Hh Hc; [exact Hc | ].
    simpl in Hh. apply andb_true_iff in Hh as [Hi Hh].
    simpl. apply IH; [exact Hh | ].
    apply step_coherent_focus; [exact Hpriv | | exact Hc].
    now destruct (is_inherited i). }
  split; intros Hpriv; unfold position, focal_point, read; simpl; f_equal.
  - subst self. now apply Hpos.
  - subst self. now apply Hfoc.
Qed.

(** ** Failures *)

Lemma set_clipping_range_raise (points : list number) (self : Camera)
      (x : exn) :
  snd (set_clipping_range points self) = Raise x ->
  fst (set_clipping_range points self) = self.
Proof.
  destruct points as [ | a [ | b rest]]; try reflexivity.
  rewrite set_clipping_range_cons2.
  destruct (py_gt a b); [reflexivity | ].
  destruct (as_double a); [destruct (as_double b) | ];
    solve [reflexivity | discriminate].
Qed.

Lemma invoke_raise (i : invocation) (self : Camera) (x : exn) :
  snd (invoke i self) = Raise x ->
  toggles_projection i = false ->
  fst (invoke i self) = self.
Proof.
  destruct i; simpl; unfold property_assign; simpl; intros H;
    try discriminate H; try (intros _; reflexivity); try discriminate.
  - intros _. unfold set_model_transform_matrix in *.
    destruct (DeepCopy_from (ravel m)); [discriminate H | reflexivity].
  - destruct arg as [[v | ] | ]; discriminate H.
  - intros _. now apply (set_clipping_range_raise points self x).
Qed.

Lemma perform_converting (r : request) (self : Camera) :
  (forall i, r <> converted i) ->
  perform r self
  = match refusal r with
    | Some x => (self, Raise x)
    | None => (fst (perform r self), Ok tt)
    end.
Proof.
  intros Hr.
  destruct r as [i | value | point | length | scale | value | vector];
    [now destruct (Hr i) | | | | | | ];
    simpl; unfold property_assign, bind, binding; simpl.
  - destruct (as_vector value); reflexivity.
  - destruct (as_vector point); reflexivity.
  - destruct (as_double length); reflexivity.
  - destruct (as_double scale); reflexivity.
  - destruct (as_double value); reflexivity.
  - destruct (as_vector vector); reflexivity.
Qed.

(** A request is refused by the binding with the object as it is, or runs as
    the invocation on the converted argument. *)
Lemma perform_refused_or_invoked (r : request) (self : Camera) :
  (exists x, refusal r = Some x /\ perform r self = (self, Raise x))
  \/ (exists i, perform r self = invoke i self).
Proof.
  destruct r as [i | value | point | length | scale | value | vector];
    [right; now exists i | | | | | | ];
    simpl; unfold property_assign, bind, binding; simpl.
  - destruct (as_vector value) as [v | x];
      [right; now exists (put_position v) | left; now exists x].
  - destruct (as_vector point) as [v | x];
      [right; now exists (put_focal_point v) | left; now exists x].
  - destruct (as_double length) as [d | x];
      [right; now exists (put_thickness d) | left; now exists x].
  - destruct (as_double scale) as [d | x];
      [right; now exists (put_parallel_scale d) | left; now exists x].
  - destruct (as_double value) as [d | x];
      [right; now exists (do_zoom d) | left; now exists x].
  - destruct (as_vector vector) as [v | x];
      [right; now exists (do_up (Some (Some v))) | left; now exists x].
Qed.

(** X9. Whenever a call or an assignment other than enabling or disabling
    the parallel projection raises, the object, native part included, is the
    one before the call: this holds for the [IndexError], [ValueError] and
    [OverflowError] of the [clipping_range] setter, the [TypeError] of the
    [model_transform_matrix] setter, the [AttributeError] of a property
    without setter, and the [TypeError] or [OverflowError] with which the
    binding refuses the argument of the [position], [focal_point],
    [thickness] and [parallel_scale] setters, of [zoom] and of [up].  These
    six raise exactly when the binding refuses their argument, and what it
    raises. *)
Theorem failures_leave_the_camera_unchanged :
  forall (r : request) (self : Camera),
    (forall x,
       snd (perform r self) = Raise x ->
       request_toggles r = false ->
       fst (perform r self) = self)
    /\ ((forall i, r <> converted i) ->
        snd (perform r self)
        = match refusal r with
          | Some x => Raise x
          | None => Ok tt
          end).
Proof.
  intros r self; split.
  - intros x H Ht.
    destruct r as [i | value | point | length | scale | value | vector];
      [now apply (invoke_raise i self x) | | | | | | ];
      rewrite perform_converting in * by discriminate;
      destruct (refusal _); solve [reflexivity | discriminate H].
  - intros Hr. rewrite (perform_converting r self Hr).
    destruct (refusal r); reflexivity.
Qed.

(** ** The values of the flag *)

Lemma step_flag (i : invocation) (self : Camera) :
  _is_parallel_projection (step self i)
  = match i with
    | do_enable_parallel_projection arg => default (VBool true) arg
    | do_disable_parallel_projection => VBool false
    | _ => _is_parallel_projection self
    end.
Proof.
  destruct i; try (now apply step_frame); simpl; unfold after.
  - rewrite enable_parallel_projection_run. reflexivity.
  - unfold disable_parallel_projection.
    rewrite enable_parallel_projection_run. reflexivity.
Qed.

Lemma run_flag (history : list invocation) (self : Camera) :
  _is_parallel_projection (run history self) = _is_parallel_projection self
  \/ (exists arg,
        In (do_enable_parallel_projection arg) history
        /\ _is_parallel_projection (run history self)
           = default (VBool true) arg)
  \/ _is_parallel_projection (run history self) = VBool false.
Proof.
  revert self; induction history as [ | i history IH]; intros self.
  - left; reflexivity.
  - simpl. destruct (IH (step self i)) as [H | [(arg & Hin & H) | H]].
    + rewrite H, step_flag.
      destruct i; try (left; reflexivity).
      * right; left. exists arg. split; [left; reflexivity | reflexivity].
      * right; right. reflexivity.
    + right; left. exists arg. split; [right; exact Hin | exact H].
    + right; right. exact H.
Qed.

(** X10. The flag of a camera reached from [__init__] is [False] or the
    argument of an [enable_parallel_projection] call of its history ([True]
    where the call gave none).  So when every such call was given a boolean
    or nothing, [is_parallel_projection] returns a boolean. *)
Theorem is_parallel_projection_is_boolean_when_enabled_with_booleans :
  forall (e0 : native) (history : list invocation),
    let self := run history (__init__ e0) in
    (_is_parallel_projection self = VBool false
     \/ exists arg,
          In (do_enable_parallel_projection arg) history
          /\ _is_parallel_projection self = default (VBool true) arg)
    /\ ((forall arg,
           In (do_enable_parallel_projection arg) history ->
           exists b, default (VBool true) arg = VBool b) ->
        exists b, is_parallel_projection self = (self, Ok (VBool b))).
Proof.
  intros e0 history self.
  assert (Hcases : _is_parallel_projection self = VBool false
                   \/ exists arg,
                        In (do_enable_parallel_projection arg) history
                        /\ _is_parallel_projection self
                           = default (VBool true) arg).
  { subst self.
    destruct (run_flag history (__init__ e0)) as [H | [H | H]].
    - left. exact H.
    - right. exact H.
    - left. exact H. }
  split; [exact Hcases | ].
  intros Hbool. unfold is_parallel_projection, read.
  destruct Hcases as [H | (arg & Hin & H)].
  - exists false. now rewrite H.
  - destruct (Hbool arg Hin) as [b Hb]. exists b. now rewrite H, Hb.
Qed.

End CameraFacts.

(** ** The statements on the plain native camera *)

#[local] Existing Instance Plain.camera.

Lemma clipping_range_setter_checks_order_witness :
  set_clipping_range [PyInt 10; PyFloat d1] plain_camera
  = (plain_camera,
     Raise (ValueError "Near point should lower than far point."))
  /\ (set_clipping_range [PyInt 1; PyInt 10] ;; clipping_range) plain_camera
     = (with_engine
          (Plain.set_clip (double_of_Z 1) (double_of_Z 10) Plain.fresh)
          plain_camera,
        Ok (double_of_Z 1, double_of_Z 10))
  /\ set_clipping_range [PyInt (- 2 ^ 1024); PyInt 10] plain_camera
     = (plain_camera, Raise OverflowError).
Proof.
  split; [ | split].
  - apply (proj1 (clipping_range_setter_checks_order
                    (PyInt 10) (PyFloat d1) plain_camera)).
    reflexivity.
  - apply (proj2 (proj2 (proj2
             (proj1 (proj2 (clipping_range_setter_checks_order
                              (PyInt 1) (PyInt 10) plain_camera) eq_refl)
                    (double_of_Z 1) (double_of_Z 10) eq_refl eq_refl)))).
    reflexivity.
  - apply (proj2 (proj2 (clipping_range_setter_checks_order
                           (PyInt (- 2 ^ 1024)) (PyInt 10) plain_camera)
                        eq_refl)).
    left. vm_compute. reflexivity.
Defined.

(** The pair (1, 2^1024) is in order, and the setter does not succeed on it:
    the binding refuses the second bound. *)
Lemma clipping_range_setter_checks_order_counterexample :
  py_le (PyInt 1) (PyInt (2 ^ 1024)) = true
  /\ set_clipping_range [PyInt 1; PyInt (2 ^ 1024)] plain_camera
     = (plain_camera, Raise OverflowError)
  /\ snd (set_clipping_range [PyInt 1; PyInt (2 ^ 1024)] plain_camera)
     <> Ok tt.
Proof.
  assert (Hfar : as_double (PyInt (2 ^ 1024)) = Raise OverflowError)
    by (vm_compute; reflexivity).
  assert (Hgt : py_gt (PyInt 1) (PyInt (2 ^ 1024)) = false)
    by (vm_compute; reflexivity).
  assert (Hrun : set_clipping_range [PyInt 1; PyInt (2 ^ 1024)] plain_camera
                 = (plain_camera, Raise OverflowError)).
  { rewrite set_clipping_range_cons2, Hgt, Hfar. reflexivity. }
  split; [vm_compute; reflexivity | split; [exact Hrun | ]].
  rewrite Hrun. discriminate.
Qed.

Lemma clipping_range_setter_indexes_unguarded_witness :
  set_clipping_range [PyInt 5] plain_camera
  = (plain_camera, Raise IndexError)
  /\ set_clipping_range [PyInt 1; PyInt 2; PyInt 0] plain_camera
     = (with_engine
          (Plain.set_clip (double_of_Z 1) (double_of_Z 2) Plain.fresh)
          plain_camera, Ok tt)
  /\ set_clipping_range [PyInt 2; PyInt 1; PyInt 3] plain_camera
     = (plain_camera,
        Raise (ValueError "Near point should lower than far point.")).
Proof.
  split; [ | split].
  - apply (proj1 (clipping_range_setter_indexes_unguarded
                    [PyInt 5] plain_camera)).
    simpl. lia.
  - exact (proj1 (proj2 (clipping_range_setter_indexes_unguarded
                           [PyInt 1; PyInt 2; PyInt 0] plain_camera)
                        (PyInt 1) (PyInt 2) [PyInt 0] eq_refl)).
  - exact (proj1 (proj2 (clipping_range_setter_indexes_unguarded
                           [PyInt 2; PyInt 1; PyInt 3] plain_camera)
                        (PyInt 2) (PyInt 1) [PyInt 3] eq_refl)).
Defined.

Lemma position_and_focal_point_round_trip_witness :
  snd ((set_position v123 ;; p <- position ;; set_position p ;; position)
         plain_camera) = Ok v123
  /\ snd ((set_focal_point v123 ;; p <- focal_point ;; set_focal_point p ;;
           focal_point) plain_camera) = Ok v123.
Proof.
  split.
  - exact (f_equal snd
             (proj2 (proj2 (proj2 (proj1
                (position_and_focal_point_round_trip v123 plain_camera))))
                (fun n => eq_refl))).
  - exact (f_equal snd
             (proj2 (proj2 (proj2 (proj2
                (position_and_focal_point_round_trip v123 plain_camera))))
                (fun n => eq_refl))).
Defined.

(** The cached position stays the one read after the assignment, while the
    native position has moved. *)
Lemma cached_vectors_are_last_read_back_witness :
  _position (run detour plain_camera) = v123
  /\ GetPosition (engine (run detour plain_camera)) = origin.
Proof.
  split.
  - apply (proj2 (proj1 (proj2 (proj2
             (@cached_vectors_are_last_read_back Plain.camera Plain.fresh
                detour)))
             [] v123 detour_tail eq_refl eq_refl)).
  - reflexivity.
Defined.

Lemma is_parallel_projection_follows_enable_disable_witness :
  snd (is_parallel_projection
         (run [put_position v123; do_up None; put_is_parallel_projection VNone]
              (after (enable_parallel_projection None) plain_camera)))
  = Ok (VBool true)
  /\ snd (is_parallel_projection
            (run [do_zoom (double_of_Z 2)]
                 (after disable_parallel_projection
                    (after (enable_parallel_projection None) plain_camera))))
     = Ok (VBool false).
Proof.
  split.
  - apply (proj1 (proj2 (proj2 (proj2 (proj2 (proj2
             (is_parallel_projection_follows_enable_disable plain_camera))))))
             None
             [put_position v123; do_up None; put_is_parallel_projection VNone]).
    reflexivity.
  - apply (proj1 (proj2 (proj2 (proj2 (proj2 (proj2 (proj2
             (is_parallel_projection_follows_enable_disable
                (after (enable_parallel_projection None) plain_camera))))))))
             [do_zoom (double_of_Z 2)]).
    reflexivity.
Defined.

(** [enable_parallel_projection(None)]: the binding raises, the flag is
    [None] all the same. *)
Lemma enable_parallel_projection_stores_the_argument_witness :
  snd (enable_parallel_projection (Some VNone) plain_camera) = Raise TypeError
  /\ snd (is_parallel_projection
            (after (enable_parallel_projection (Some VNone)) plain_camera))
     <> Ok (VBool false).
Proof.
  split.
  - reflexivity.
  - apply (proj2 (proj2
             (enable_parallel_projection_stores_the_argument VNone
                plain_camera))).
    intros b; discriminate.
Defined.



Lemma model_transform_matrix_round_trip_witness :
  snd ((set_model_transform_matrix np_eye4 ;;
        model_transform_matrix (fun _ => S754_nan))
         zeroed_camera)
  = Ok np_eye4.
Proof.
  exact (f_equal snd
           (proj2 (proj2 (proj2
              (model_transform_matrix_round_trip (fun _ => S754_nan)
                 zeroed_camera)))
              (fun m n => eq_refl))).
Defined.

Lemma distance_of_1_2_3_from_origin_witness :
  snd ((set_position v123 ;; set_focal_point origin ;; distance) plain_camera)
  = Ok (fsqrt (double_of_Z 14)).
Proof.
  apply (proj1 (proj2 (proj2
           (@distance_of_1_2_3_from_origin Plain.camera plain_camera)))
           Plain.fresh).
  - intros v n; reflexivity.
  - intros p n; reflexivity.
  - intros p n; reflexivity.
  - intros n; reflexivity.
Defined.

Lemma del_removes_observers_and_clears_parent_witness :
  Observers (engine plain_camera) = [1%nat; 2%nat]
  /\ Observers (engine (after __del__ plain_camera)) = []
  /\ parent (after __del__ plain_camera) = Some VNone.
Proof.
  split; [reflexivity | split].
  - apply (proj2 (proj2
             (del_removes_observers_and_clears_parent plain_camera))).
    intros n; reflexivity.
  - reflexivity.
Defined.

(** ** Concrete runs *)

Example py_gt_float_int :
  py_gt (PyFloat (S754_finite false 5 (-1))) (PyInt 2) = true
  /\ py_gt (PyInt 2) (PyFloat (S754_finite false 5 (-1))) = false
  /\ py_le (PyInt 2) (PyFloat (S754_finite false 5 (-1))) = true.
Proof. repeat split. Qed.

(** A NaN bound is neither greater nor lower-or-equal: the setter forwards it. *)
Example clipping_range_nan :
  py_gt (PyFloat S754_nan) (PyInt 1) = false
  /\ py_le (PyFloat S754_nan) (PyInt 1) = false
  /\ snd (set_clipping_range [PyFloat S754_nan; PyInt 1] plain_camera) = Ok tt.
Proof. repeat split. Qed.

Example clipping_range_empty :
  set_clipping_range [] plain_camera = (plain_camera, Raise IndexError).
Proof. reflexivity. Qed.

Example thickness_after_clipping_range :
  snd ((set_clipping_range [PyInt 1; PyInt 10] ;; thickness) plain_camera)
  = Ok (double_of_Z 9).
Proof. vm_compute. reflexivity. Qed.

Example matrix_of_wrong_size :
  set_model_transform_matrix {| shape := [2%nat; 2%nat];
                                data := [PyInt 1; PyInt 0; PyInt 0; PyInt 1] |}
                             plain_camera
  = (plain_camera, Raise TypeError).
Proof. reflexivity. Qed.

Example distance_is_read_only :
  property_assign prop_distance (ret tt) plain_camera
  = (plain_camera, Raise AttributeError).
Proof. reflexivity. Qed.

(** ** The further properties on the plain native camera *)

Lemma clipping_range_setter_is_strict_witness :
  set_clipping_range [PyInt 10; PyInt 10] plain_camera
  = (with_engine
       (Plain.set_clip (double_of_Z 10) (double_of_Z 10) Plain.fresh)
       plain_camera, Ok tt)
  /\ set_clipping_range [PyInt 1; PyInt 10] plain_camera
     = (with_engine
          (Plain.set_clip (double_of_Z 1) (double_of_Z 10) Plain.fresh)
          plain_camera, Ok tt).
Proof.
  split.
  - exact (proj1 (proj2 (proj2 (clipping_range_setter_is_strict
                                  (PyInt 10) (PyInt 1) plain_camera))
                        (double_of_Z 10) (double_of_Z 1) eq_refl eq_refl)).
  - exact (proj2 (proj2 (proj2 (clipping_range_setter_is_strict
                                  (PyInt 10) (PyInt 1) plain_camera))
                        (double_of_Z 10) (double_of_Z 1) eq_refl eq_refl)
                 eq_refl).
Defined.


Lemma reads_leave_the_camera_unchanged_witness :
  run reads_only plain_camera = plain_camera.
Proof.
  apply (proj2 (reads_leave_the_camera_unchanged plain_camera) reads_only).
  reflexivity.
Defined.

Lemma native_state_ignores_the_cache_witness :
  engine (run wrapper_only plain_camera)
  = engine (run wrapper_only stale_camera).
Proof.
  apply (proj1 (native_state_ignores_the_cache wrapper_only plain_camera
                  stale_camera eq_refl)).
Defined.

Lemma plain_untouched_by_others (g : Plain.state -> Vector) :
  (forall v s, g (Plain.set_view_up v s) = g s) ->
  (forall m s, g (Plain.set_matrix m s) = g s) ->
  (forall x s, g (Plain.set_view_angle x s) = g s) ->
  (forall x s, g (Plain.set_scale x s) = g s) ->
  (forall b s, g (Plain.set_parallel b s) = g s) ->
  (forall a b s, g (Plain.set_clip a b s) = g s) ->
  @untouched_by_others Plain.camera g.
Proof.
  intros Hu Hm Ha Hs Hp Hc.
  unfold untouched_by_others, keeps; simpl.
  split; [intros m n; apply Hm | ].
  split; [intros t n; apply Hc | ].
  split; [intros x n; apply Hs | ].
  split.
  { intros z n. unfold Plain.zoom.
    destruct (Plain.parallel n =? 0); [apply Ha | apply Hs]. }
  split; [intros v n; apply Hu | ].
  split; [ | intros a b n; apply Hc].
  intros f n.
  destruct f as [ | b | [z | f] | str]; simpl; try reflexivity;
    try apply Hp.
  match goal with
  | |- context [if ?c then _ else _] => destruct c
  end; simpl; [apply Hp | reflexivity].
Qed.

Lemma plain_position_is_private : @position_is_private Plain.camera.
Proof.
  split; [apply plain_untouched_by_others; intros; reflexivity | ].
  intros p n; reflexivity.
Qed.

Lemma plain_focal_point_is_private : @focal_point_is_private Plain.camera.
Proof.
  split; [apply plain_untouched_by_others; intros; reflexivity | ].
  intros p n; reflexivity.
Qed.

Lemma cache_is_coherent_through_the_wrapper_witness :
  snd (position (run wrapper_only plain_camera))
  = Ok (GetPosition (engine (run wrapper_only plain_camera)))
  /\ snd (focal_point (run wrapper_only plain_camera))
     = Ok (GetFocalPoint (engine (run wrapper_only plain_camera))).
Proof.
  split.
  - apply (proj1 (@cache_is_coherent_through_the_wrapper Plain.camera
                    Plain.fresh wrapper_only eq_refl)).
    exact plain_position_is_private.
  - apply (proj2 (@cache_is_coherent_through_the_wrapper Plain.camera
                    Plain.fresh wrapper_only eq_refl)).
    exact plain_focal_point_is_private.
Defined.

Lemma overflowing_position_raises :
  snd (perform overflowing_position plain_camera) = Raise OverflowError.
Proof. vm_compute. reflexivity. Qed.

Lemma failures_leave_the_camera_unchanged_witness :
  fst (perform reversed_range plain_camera) = plain_camera
  /\ fst (perform overflowing_position plain_camera) = plain_camera.
Proof.
  split.
  - apply (proj1 (failures_leave_the_camera_unchanged reversed_range
                    plain_camera)
                 (ValueError "Near point should lower than far point.")
                 eq_refl eq_refl).
  - apply (proj1 (failures_leave_the_camera_unchanged overflowing_position
                    plain_camera)
                 OverflowError overflowing_position_raises eq_refl).
Defined.

Lemma wrapper_only_enables_with_booleans :
  forall arg,
    In (@do_enable_parallel_projection Plain.camera arg) wrapper_only ->
    exists b, default (VBool true) arg = VBool b.
Proof.
  intros arg Hin. unfold wrapper_only in Hin. simpl in Hin.
  repeat (destruct Hin as [Hin | Hin]; [try discriminate Hin | ]).
  - injection Hin as <-. now exists true.
  - destruct Hin.
Qed.

Lemma is_parallel_projection_is_boolean_when_enabled_with_booleans_witness :
  exists b,
    is_parallel_projection (run wrapper_only plain_camera)
    = (run wrapper_only plain_camera, Ok (VBool b)).
Proof.
  apply (proj2 (@is_parallel_projection_is_boolean_when_enabled_with_booleans
                  Plain.camera Plain.fresh wrapper_only)
               wrapper_only_enables_with_booleans).
Defined.

Example position_of_wrong_size :
  perform (position_is [PyInt 1; PyInt 2]) plain_camera
  = (plain_camera, Raise TypeError).
Proof. reflexivity. Qed.

Example thickness_beyond_double :
  snd (perform (thickness_is (PyInt (2 ^ 1024))) plain_camera)
  = Raise OverflowError.
Proof. vm_compute. reflexivity. Qed.

Example largest_int_that_converts :
  as_double (PyInt (2 ^ 1024 - 2 ^ 970 - 1))
  = Ok (S754_finite false 9007199254740991 971)
  /\ as_double (PyInt (2 ^ 1024 - 2 ^ 970)) = Raise OverflowError.
Proof. split; vm_compute; reflexivity. Qed.
